(** * bot.py: the document-intake pipeline of the Telegram bot

    A shallow embedding of [src/bot.py].  Python [str] values are lists of
    Unicode code points, parsed JSON values are a nested inductive with
    association lists for objects, and the effectful functions
    ([analyze_document], [write_to_sheet], [handle_document]) live in a small
    state-and-exception monad whose state records the calls made to the
    outside world (chat transport, temporary storage, PDF loader, language
    model, spreadsheet service).  The outside world itself is a record of
    functions, one per external call, so every theorem quantifies over all
    behaviours of the collaborators. *)

From Stdlib Require Import List NArith ZArith Bool Ascii String Lia.
Import ListNotations.

Set Implicit Arguments.
Set Warnings "-register-all".

(** ** Python strings *)

Module PyStr.

(** A [str] is a sequence of code points; indexing, slicing and [len] count
    code points, as in Python 3. *)
Definition str := list N.

Definition eqb (a b : str) : bool :=
  if list_eq_dec N.eq_dec a b then true else false.

(** *** Source literals

    The literals of bot.py are written here as they are in the source file
    (UTF-8) and decoded to code points. *)

Definition byte_val (c : ascii) : N := N_of_ascii c.

Fixpoint utf8 (bs : list N) : str :=
  match bs with
  | [] => []
  | b0 :: r0 =>
    if (b0 <? 128)%N then b0 :: utf8 r0
    else if (b0 <? 224)%N then
      match r0 with
      | b1 :: r1 => ((b0 - 192) * 64 + (b1 - 128))%N :: utf8 r1
      | _ => [b0]
      end
    else if (b0 <? 240)%N then
      match r0 with
      | b1 :: b2 :: r2 =>
        ((b0 - 224) * 4096 + (b1 - 128) * 64 + (b2 - 128))%N :: utf8 r2
      | _ => [b0]
      end
    else
      match r0 with
      | b1 :: b2 :: b3 :: r3 =>
        ((b0 - 240) * 262144 + (b1 - 128) * 4096
         + (b2 - 128) * 64 + (b3 - 128))%N :: utf8 r3
      | _ => [b0]
      end
  end.

Fixpoint bytes_of (s : string) : list N :=
  match s with
  | EmptyString => []
  | String c r => byte_val c :: bytes_of r
  end.

Definition lit (s : string) : str := utf8 (bytes_of s).
Arguments lit s%_string.

(** The double quote, which a literal cannot hold. *)
Definition dq : str := [34%N].

(** *** [str.startswith], [str.endswith], slicing *)

Fixpoint startswith (s p : str) : bool :=
  match p, s with
  | [], _ => true
  | _ :: _, [] => false
  | c :: p', d :: s' => N.eqb c d && startswith s' p'
  end.

Definition endswith (s p : str) : bool := startswith (rev s) (rev p).

(** [s[n:]] *)
Definition slice_from (n : nat) (s : str) : str := skipn n s.

(** [s[:-n]] for [n > 0] *)
Definition slice_to_neg (n : nat) (s : str) : str :=
  firstn (List.length s - n) s.

(** *** [str.strip]

    Without argument [strip] removes the characters for which
    [str.isspace] holds, at both ends. *)
Definition isspace (c : N) : bool :=
  ((9 <=? c) && (c <=? 13) || (28 <=? c) && (c <=? 32)
   || (c =? 133) || (c =? 160) || (c =? 5760)
   || (8192 <=? c) && (c <=? 8202)
   || (c =? 8232) || (c =? 8233) || (c =? 8239) || (c =? 8287)
   || (c =? 12288))%N.

Fixpoint lstrip (s : str) : str :=
  match s with
  | [] => []
  | c :: r => if isspace c then lstrip r else s
  end.

Definition rstrip (s : str) : str := rev (lstrip (rev s)).

Definition strip (s : str) : str := rstrip (lstrip s).

(** ["sep".join(parts)] *)
Fixpoint join (sep : str) (parts : list str) : str :=
  match parts with
  | [] => []
  | [p] => p
  | p :: rest => p ++ sep ++ join sep rest
  end.

End PyStr.
Import PyStr.


(** ** Values, exceptions and results *)

(** What [json.loads] returns: [None], [bool], [int], [float], [str],
    [list] and [dict].  A dict keeps its items in insertion order with
    distinct keys; a float is carried as text. *)
Inductive json : Type :=
| JNull
| JBool (b : bool)
| JInt (n : Z)
| JFloat (text : str)
| JStr (s : str)
| JList (items : list json)
| JDict (items : list (str * json)).

Inductive exn_class : Type :=
| OSError            (* [EnvironmentError] is its alias *)
| AttributeError
| TypeError
| JSONDecodeError
| FileNotFoundError
| OtherError (name : str).

(** An exception derived from [Exception]; [exn_msg] is [str(e)]. *)
Record exn : Type := Exn { exn_type : exn_class; exn_msg : str }.

Inductive outcome (A : Type) : Type :=
| Ok (a : A)
| Raise (e : exn).
Arguments Ok {A} a.
Arguments Raise {A} e.

Definition is_ok {A} (r : outcome A) : bool :=
  match r with Ok _ => true | Raise _ => false end.

Definition rbind {A B} (r : outcome A) (k : A -> outcome B) : outcome B :=
  match r with
  | Ok a => k a
  | Raise e => Raise e
  end.

(** *** Dictionaries *)

Module Dict.

Fixpoint lookup (k : str) (d : list (str * json)) : option json :=
  match d with
  | [] => None
  | (k', v) :: r => if PyStr.eqb k k' then Some v else lookup k r
  end.

(** [d[k] = v]: replaces the value of an existing key in place, appends a new
    key at the end. *)
Fixpoint set (k : str) (v : json) (d : list (str * json))
  : list (str * json) :=
  match d with
  | [] => [(k, v)]
  | (k', v') :: r =>
    if PyStr.eqb k k' then (k, v) :: r else (k', v') :: set k v r
  end.

End Dict.

Definition type_name (v : json) : str :=
  match v with
  | JNull => lit "NoneType"
  | JBool _ => lit "bool"
  | JInt _ => lit "int"
  | JFloat _ => lit "float"
  | JStr _ => lit "str"
  | JList _ => lit "list"
  | JDict _ => lit "dict"
  end.

(** [v.get(k, default)]: only a dict has the method. *)
Definition py_get (v : json) (k : str) (default : json) : outcome json :=
  match v with
  | JDict d =>
    match Dict.lookup k d with
    | Some x => Ok x
    | None => Ok default
    end
  | _ =>
    Raise (Exn AttributeError
             (lit "'" ++ type_name v ++ lit "' object has no attribute 'get'"))
  end.

(** [v[k] = x] with a string key. *)
Definition py_setitem (v : json) (k : str) (x : json) : outcome json :=
  match v with
  | JDict d => Ok (JDict (Dict.set k x d))
  | JList _ =>
    Raise (Exn TypeError
             (lit "list indices must be integers or slices, not str"))
  | _ =>
    Raise (Exn TypeError
             (lit "'" ++ type_name v
              ++ lit "' object does not support item assignment"))
  end.

(** ** The outside world *)

Definition bytes := list N.
Definition path := str.
Definition tg_file := N.
Definition creds := N.
Definition service := N.

(** One field per external call of bot.py.  A call either returns or raises;
    the model covers exceptions derived from [Exception], the ones the
    handlers of bot.py catch. *)
Record world : Type := World {
  (* process environment: [os.getenv] *)
  getenv : str -> option str;
  (* start-up: [ChatOpenAI(...)], [Application.builder().token(t).build()] *)
  chat_openai : option str -> outcome unit;
  application_build : option str -> outcome unit;
  (* chat transport: [update.message.reply_text(text, parse_mode)] with
     [true] for [parse_mode="Markdown"], [context.bot.get_file],
     [tg_file.download_as_bytearray] *)
  reply_text : str -> bool -> outcome unit;
  get_file : str -> outcome tg_file;
  download_as_bytearray : tg_file -> outcome bytes;
  (* temporary storage: [tempfile.NamedTemporaryFile(delete=False, ...)],
     [tmp.write], and the close at the end of the [with] block *)
  named_temporary_file : outcome path;
  tmp_write : path -> bytes -> outcome unit;
  tmp_close : path -> outcome unit;
  (* [PyPDFLoader(path).load()], as the [page_content] of each page *)
  pdf_load : path -> outcome (list str);
  (* [llm.invoke(prompt).content] *)
  llm_invoke : str -> outcome str;
  (* [json.loads] and the builtin [str()] on values that are not strings *)
  json_loads : str -> outcome json;
  str_of : json -> str;
  (* [base64.b64decode(s).decode("utf-8")],
     [service_account.Credentials.from_service_account_info],
     [build('sheets', 'v4', credentials=creds)] and
     [service.spreadsheets().values().append(...).execute()] *)
  b64decode_utf8 : str -> outcome str;
  from_service_account_info : json -> outcome creds;
  build : creds -> outcome service;
  values_append : service -> option str -> list json -> outcome unit
}.

(** The attachment of the incoming message, [update.message.document]. *)
Record document : Type := Document {
  mime_type : option str;
  file_id : str;
  file_name : option str
}.

(** ** Calls and state *)

Inductive call : Type :=
| Reply (text : str) (markdown : bool)
| GetFile (id : str)
| Download (f : tg_file)
| TmpCreate
| TmpWrite (p : path) (data : bytes)
| TmpClose (p : path)
| PdfLoad (p : path)
| LlmInvoke (prompt : str)
| SheetsBuild (c : creds)
| SheetsAppend (sheet_id : option str) (row : list json)
| Print (line : str)
| Unlink (p : path).

(** A call together with whether it returned ([true]) or raised. *)
Inductive event : Type := Ev (c : call) (ok : bool).

(** [calls]: the external calls made so far, oldest first.
    [files]: the files present in temporary storage.
    [tmp_path]: the local variable of [handle_document], [None] while
    unbound. *)
Record state : Type := State {
  calls : list event;
  files : list path;
  tmp_path : option path
}.

Definition M (A : Type) : Type := state -> outcome A * state.

Definition ret {A} (a : A) : M A := fun st => (Ok a, st).

Definition bind {A B} (m : M A) (k : A -> M B) : M B :=
  fun st =>
    match m st with
    | (Ok a, st') => k a st'
    | (Raise e, st') => (Raise e, st')
    end.

Definition lift {A} (r : outcome A) : M A := fun st => (r, st).

Declare Scope py_scope.
Delimit Scope py_scope with py.
Notation "x <- m ;; k" := (bind m (fun x => k))
  (at level 61, m at next level, right associativity) : py_scope.
Notation "m ;; k" := (bind m (fun _ => k))
  (at level 61, right associativity) : py_scope.
Notation "x <~ r ;; k" := (rbind r (fun x => k))
  (at level 61, r at next level, right associativity) : py_scope.
Open Scope py_scope.

(** [try: body except Exception as e: handler e] *)
Definition try_except {A} (body : M A) (handler : exn -> M A) : M A :=
  fun st =>
    match body st with
    | (Ok a, st') => (Ok a, st')
    | (Raise e, st') => handler e st'
    end.

(** [try: body finally: fin].  An exception of [fin] replaces the outcome of
    [body]. *)
Definition try_finally {A} (body : M A) (fin : M unit) : M A :=
  fun st =>
    match body st with
    | (r, st') =>
      match fin st' with
      | (Ok _, st'') => (r, st'')
      | (Raise e, st'') => (Raise e, st'')
      end
    end.

Definition log (c : call) (ok : bool) (st : state) : state :=
  State (calls st ++ [Ev c ok]) (files st) (tmp_path st).

(** An external call with outcome [r]. *)
Definition perform {A} (c : call) (r : outcome A) : M A :=
  fun st => (r, log c (is_ok r) st).

(** ** bot.py *)

(** The texts of the replies (lines 112, 115, 132, 150, 153) and of the
    line printed by [write_to_sheet] (line 99). *)
Definition msg_rejection : str := lit "Пожалуйста, отправь PDF-файл.".
Definition msg_receiving : str := lit "📥 Получаю файл...".
Definition msg_analysing : str := lit "🧠 Анализирую документ...".
Definition msg_saved : str := lit "📤 Результат сохранён в Google Таблицу!".
Definition msg_error (e : exn) : str := lit "❌ Ошибка: " ++ exn_msg e.
Definition log_line (e : exn) : str :=
  lit "Ошибка записи в таблицу: " ++ exn_msg e.

(** What [get_google_creds] raises for a missing credential, line 34. *)
Definition unset_message : exn :=
  Exn OSError (lit "GOOGLE_CREDENTIALS_B64 не задан!").

Section Bot.

Variable w : world.

(** Module level, lines 17-19: read once when the module is loaded. *)
Definition TELEGRAM_BOT_TOKEN : option str :=
  getenv w (lit "TELEGRAM_BOT_TOKEN").
Definition DEEPSEEK_API_KEY : option str :=
  getenv w (lit "DEEPSEEK_API_KEY").
Definition SPREADSHEET_ID : option str :=
  getenv w (lit "SPREADSHEET_ID").

(** [get_google_creds], lines 31-40.  [not b64_str] holds for an unset
    variable and for the empty string. *)
Definition get_google_creds : outcome creds :=
  match getenv w (lit "GOOGLE_CREDENTIALS_B64") with
  | None | Some [] => Raise unset_message
  | Some b64_str =>
    creds_json <~ b64decode_utf8 w b64_str ;;
    creds_dict <~ json_loads w creds_json ;;
    from_service_account_info w creds_dict
  end.

Definition nl : str := [10%N].

Definition quoted (s : str) : str := dq ++ s ++ dq.

Definition schema_line (indent : str) (key : str) (last : bool) : str :=
  indent ++ quoted key ++ lit ": " ++ quoted (lit "...")
  ++ (if last then [] else lit ",").

(** The f-string of lines 44-68. *)
Definition prompt (text : str) : str :=
  join nl
    [ lit "Проанализируй документ и извлеки:";
      lit "- Тип документа";
      lit "- Имя человека (если есть)";
      lit "- Ключевые факты: должность, город, дата, организация";
      lit "- Краткое резюме (1–2 предложения)";
      [];
      lit "Верни ТОЛЬКО валидный JSON без ```json.";
      [];
      lit "Формат:";
      lit "{";
      schema_line (lit "  ") (lit "тип") false;
      schema_line (lit "  ") (lit "имя") false;
      lit "  " ++ quoted (lit "факты") ++ lit ": {";
      schema_line (lit "    ") (lit "должность") false;
      schema_line (lit "    ") (lit "город") false;
      schema_line (lit "    ") (lit "дата") false;
      schema_line (lit "    ") (lit "организация") true;
      lit "  },";
      schema_line (lit "  ") (lit "резюме") true;
      lit "}";
      [];
      lit "Текст:";
      text;
      [];
      lit "Ответ:" ].

(** Lines 69-74 after the call of the model: what is handed to
    [json.loads]. *)
Definition strip_fences (content : str) : str :=
  let response := strip content in
  let response :=
    if startswith response (lit "```json") then slice_from 7 response
    else response in
  let response :=
    if endswith response (lit "```") then slice_to_neg 3 response
    else response in
  strip response.

(** [analyze_document], lines 43-74. *)
Definition analyze_document (text : str) : M json :=
  content <- perform (LlmInvoke (prompt text)) (llm_invoke w (prompt text)) ;;
  lift (json_loads w (strip_fences content)).

(** The row of [write_to_sheet], lines 81-91. *)
Definition sheet_row (data : json) : outcome (list json) :=
  facts <~ py_get data (lit "факты") (JDict []) ;;
  c0 <~ py_get data (lit "файл") (JStr []) ;;
  c1 <~ py_get data (lit "тип") (JStr []) ;;
  c2 <~ py_get data (lit "имя") (JStr []) ;;
  c3 <~ py_get facts (lit "должность") (JStr []) ;;
  c4 <~ py_get facts (lit "город") (JStr []) ;;
  c5 <~ py_get facts (lit "дата") (JStr []) ;;
  c6 <~ py_get facts (lit "организация") (JStr []) ;;
  c7 <~ py_get data (lit "резюме") (JStr []) ;;
  Ok [c0; c1; c2; c3; c4; c5; c6; c7].

(** The builtin [str()], what an f-string applies to a value. *)
Definition py_str (v : json) : str :=
  match v with
  | JStr s => s
  | _ => str_of w v
  end.

(** [write_to_sheet], lines 77-99. *)
Definition write_to_sheet (data : json) (sheet_id : option str) : M unit :=
  try_except
    (creds <- lift get_google_creds ;;
     service <- perform (SheetsBuild creds) (build w creds) ;;
     row <- lift (sheet_row data) ;;
     perform (SheetsAppend sheet_id row)
             (values_append w service sheet_id row))
    (fun e =>
       perform (Print (log_line e)) (Ok tt)).

(** The message of lines 136-144. *)
Definition format_response (result : json) : outcome str :=
  v_type <~ py_get result (lit "тип") (JStr (lit "-")) ;;
  v_name <~ py_get result (lit "имя") (JStr (lit "-")) ;;
  facts1 <~ py_get result (lit "факты") (JDict []) ;;
  v_role <~ py_get facts1 (lit "должность") (JStr (lit "-")) ;;
  facts2 <~ py_get result (lit "факты") (JDict []) ;;
  v_city <~ py_get facts2 (lit "город") (JStr (lit "-")) ;;
  facts3 <~ py_get result (lit "факты") (JDict []) ;;
  v_date <~ py_get facts3 (lit "дата") (JStr (lit "-")) ;;
  facts4 <~ py_get result (lit "факты") (JDict []) ;;
  v_org <~ py_get facts4 (lit "организация") (JStr (lit "-")) ;;
  v_summary <~ py_get result (lit "резюме") (JStr (lit "-")) ;;
  Ok (lit "✅ **Тип**: " ++ py_str v_type ++ nl
      ++ lit "👤 **Имя**: " ++ py_str v_name ++ nl
      ++ lit "💼 **Должность**: " ++ py_str v_role ++ nl
      ++ lit "🏙️ **Город**: " ++ py_str v_city ++ nl
      ++ lit "📅 **Дата**: " ++ py_str v_date ++ nl
      ++ lit "🏢 **Организация**: " ++ py_str v_org ++ nl ++ nl
      ++ lit "📝 **Резюме**: " ++ py_str v_summary).

(** [update.message.reply_text]. *)
Definition reply (text : str) (markdown : bool) : M unit :=
  perform (Reply text markdown) (reply_text w text markdown).

(** The [with] block of lines 123-125: the file is created, written, the
    local [tmp_path] is bound, and the file is closed when the block is left,
    also by an exception. *)
Definition create_tmp : M path :=
  fun st =>
    match named_temporary_file w with
    | Ok p =>
      (Ok p, State (calls st ++ [Ev TmpCreate true]) (p :: files st)
                   (tmp_path st))
    | Raise e => (Raise e, log TmpCreate false st)
    end.

Definition bind_tmp_path (p : path) : M unit :=
  fun st => (Ok tt, State (calls st) (files st) (Some p)).

Definition write_tmp (file_bytes : bytes) : M path :=
  tmp <- create_tmp ;;
  try_finally
    (perform (TmpWrite tmp file_bytes) (tmp_write w tmp file_bytes) ;;
     bind_tmp_path tmp ;;
     ret tmp)
    (perform (TmpClose tmp) (tmp_close w tmp)).

(** [os.unlink]: removes the file, or raises when there is none. *)
Fixpoint remove_file (p : path) (fs : list path) : option (list path) :=
  match fs with
  | [] => None
  | q :: r =>
    if PyStr.eqb p q then Some r
    else match remove_file p r with
         | Some r' => Some (q :: r')
         | None => None
         end
  end.

Definition unlink (p : path) : M unit :=
  fun st =>
    match remove_file p (files st) with
    | Some fs =>
      (Ok tt, State (calls st ++ [Ev (Unlink p) true]) fs (tmp_path st))
    | None =>
      (Raise (Exn FileNotFoundError p), log (Unlink p) false st)
    end.

(** The [finally] clause, lines 154-156. *)
Definition cleanup : M unit :=
  fun st =>
    match tmp_path st with
    | Some p => unlink p st
    | None => (Ok tt, st)
    end.

Definition json_of_name (name : option str) : json :=
  match name with
  | Some s => JStr s
  | None => JNull
  end.

Definition is_pdf (mime : option str) : bool :=
  match mime with
  | Some m => PyStr.eqb m (lit "application/pdf")
  | None => false
  end.

(** The body of the [try] block of [handle_document], lines 118-150. *)
Definition pipeline (file : document) : M unit :=
  tg <- perform (GetFile (file_id file)) (get_file w (file_id file)) ;;
  file_bytes <- perform (Download tg) (download_as_bytearray w tg) ;;
  path <- write_tmp file_bytes ;;
  pages <- perform (PdfLoad path) (pdf_load w path) ;;
  let full_text := join nl pages in
  reply msg_analysing false ;;
  result <- analyze_document full_text ;;
  response <- lift (format_response result) ;;
  reply response true ;;
  result <- lift (py_setitem result (lit "файл")
                             (json_of_name (file_name file))) ;;
  write_to_sheet result SPREADSHEET_ID ;;
  reply msg_saved false.

(** [handle_document], lines 109-156. *)
Definition handle_document (file : document) : M unit :=
  if negb (is_pdf (mime_type file)) then
    reply msg_rejection false
  else
    reply msg_receiving false ;;
    try_finally
      (try_except (pipeline file) (fun e => reply (msg_error e) false))
      cleanup.

(** Start-up: the module level (the model client of lines 21-28) and
    [main] up to the start of polling, lines 159-163. *)
Definition startup : outcome unit :=
  _ <~ chat_openai w DEEPSEEK_API_KEY ;;
  application_build w TELEGRAM_BOT_TOKEN.

End Bot.

(** A request starts with no call made and [tmp_path] unbound. *)
Definition fresh (fs : list path) : state := State [] fs None.

Definition run (w : world) (file : document) (fs : list path)
  : outcome unit * state :=
  handle_document w file (fresh fs).

(** ** A reader for the JSON grammar

    [json_loads] is a parameter of the model.  This reader instantiates it in
    the examples: the grammar of RFC 8259 with the extensions of the CPython
    decoder ([NaN], [Infinity], [-Infinity]; a repeated key keeps its first
    position and its last value).  Every rejection is reported with one
    message, and a float is carried as the text of its literal. *)

Module JsonRef.

Definition is_ws (c : N) : bool :=
  ((c =? 32) || (c =? 9) || (c =? 10) || (c =? 13))%N.

Fixpoint skip_ws (s : str) : str :=
  match s with
  | [] => []
  | c :: r => if is_ws c then skip_ws r else s
  end.

Definition is_digit (c : N) : bool := ((48 <=? c) && (c <=? 57))%N.

Fixpoint span_digits (s : str) : str * str :=
  match s with
  | [] => ([], [])
  | c :: r =>
    if is_digit c then let (ds, rest) := span_digits r in (c :: ds, rest)
    else ([], s)
  end.

Definition digits_value (ds : str) : N :=
  fold_left (fun a d => (a * 10 + (d - 48))%N) ds 0%N.

Definition hex_digit (c : N) : option N :=
  if is_digit c then Some (c - 48)%N
  else if ((97 <=? c) && (c <=? 102))%N then Some (c - 87)%N
  else if ((65 <=? c) && (c <=? 70))%N then Some (c - 55)%N
  else None.

(** Four hexadecimal digits. *)
Definition hex4 (s : str) : option (N * str) :=
  match s with
  | a :: b :: c :: d :: r =>
    match hex_digit a, hex_digit b, hex_digit c, hex_digit d with
    | Some x, Some y, Some z, Some t =>
      Some (((x * 16 + y) * 16 + z) * 16 + t, r)%N
    | _, _, _, _ => None
    end
  | _ => None
  end.

(** The code point of a [\u] escape, a surrogate pair giving one. *)
Definition unicode_escape (s : str) : option (N * str) :=
  match hex4 s with
  | Some (hi, r) =>
    if ((55296 <=? hi) && (hi <=? 56319))%N then
      match r with
      | x :: y :: r' =>
        if ((x =? 92) && (y =? 117))%N then
          match hex4 r' with
          | Some (lo, r'') =>
            if ((56320 <=? lo) && (lo <=? 57343))%N
            then Some (65536 + (hi - 55296) * 1024 + (lo - 56320), r'')%N
            else Some (hi, r)
          | None => Some (hi, r)
          end
        else Some (hi, r)
      | _ => Some (hi, r)
      end
    else Some (hi, r)
  | None => None
  end.

Definition simple_escape (c : N) : option N :=
  if (c =? 34)%N then Some 34%N
  else if (c =? 92)%N then Some 92%N
  else if (c =? 47)%N then Some 47%N
  else if (c =? 98)%N then Some 8%N
  else if (c =? 102)%N then Some 12%N
  else if (c =? 110)%N then Some 10%N
  else if (c =? 114)%N then Some 13%N
  else if (c =? 116)%N then Some 9%N
  else None.

(** The characters of a string after its opening quote. *)
Fixpoint string_body (fuel : nat) (s acc : str) : option (str * str) :=
  match fuel with
  | O => None
  | S f =>
    match s with
    | [] => None
    | c :: r =>
      if (c =? 34)%N then Some (rev acc, r)
      else if (c =? 92)%N then
        match r with
        | [] => None
        | e :: r' =>
          if (e =? 117)%N then
            match unicode_escape r' with
            | Some (cp, r'') => string_body f r'' (cp :: acc)
            | None => None
            end
          else
            match simple_escape e with
            | Some cp => string_body f r' (cp :: acc)
            | None => None
            end
        end
      else if (c <? 32)%N then None
      else string_body f r (c :: acc)
    end
  end.

Definition take_sign (s : str) : bool * str :=
  match s with
  | c :: r => if (c =? 45)%N then (true, r) else (false, s)
  | [] => (false, s)
  end.

(** A number: an optional minus sign, an integer part without leading zero,
    an optional fraction and an optional exponent.  Without fraction and
    exponent it is an [int]. *)
Definition number (s : str) : option (json * str) :=
  let (neg, s1) := take_sign s in
  let (int_ds, s2) :=
    match s1 with
    | c :: r => if (c =? 48)%N then ([c], r) else span_digits s1
    | [] => ([], [])
    end in
  match int_ds with
  | [] => None
  | _ =>
    let (frac, s3) :=
      match s2 with
      | c :: r =>
        if (c =? 46)%N then
          match span_digits r with
          | ([], _) => ([], s2)
          | (ds, rest) => (c :: ds, rest)
          end
        else ([], s2)
      | [] => ([], s2)
      end in
    let (expo, s4) :=
      match s3 with
      | c :: r =>
        if ((c =? 101) || (c =? 69))%N then
          let (sg, r') :=
            match r with
            | d :: t => if ((d =? 43) || (d =? 45))%N then ([d], t)
                        else ([], r)
            | [] => ([], r)
            end in
          match span_digits r' with
          | ([], _) => ([], s3)
          | (ds, rest) => (c :: sg ++ ds, rest)
          end
        else ([], s3)
      | [] => ([], s3)
      end in
    match frac, expo with
    | [], [] =>
      let n := Z.of_N (digits_value int_ds) in
      Some (JInt (if neg then (- n)%Z else n), s4)
    | _, _ =>
      Some (JFloat ((if neg then [45%N] else []) ++ int_ds ++ frac ++ expo),
            s4)
    end
  end.

Definition keyword (s : str) : option (json * str) :=
  if startswith s (lit "true") then Some (JBool true, skipn 4 s)
  else if startswith s (lit "false") then Some (JBool false, skipn 5 s)
  else if startswith s (lit "null") then Some (JNull, skipn 4 s)
  else if startswith s (lit "NaN") then Some (JFloat (lit "nan"), skipn 3 s)
  else if startswith s (lit "Infinity")
       then Some (JFloat (lit "inf"), skipn 8 s)
  else if startswith s (lit "-Infinity")
       then Some (JFloat (lit "-inf"), skipn 9 s)
  else None.

(** [value] reads one value at the head of [s]; [members] and [elements] read
    what follows the opening bracket up to the closing one. *)
Fixpoint value (fuel : nat) (s : str) : option (json * str) :=
  match fuel with
  | O => None
  | S f =>
    match s with
    | [] => None
    | c :: r =>
      if (c =? 123)%N then
        match skip_ws r with
        | d :: r' =>
          if (d =? 125)%N then Some (JDict [], r')
          else members f (d :: r') []
        | [] => None
        end
      else if (c =? 91)%N then
        match skip_ws r with
        | d :: r' =>
          if (d =? 93)%N then Some (JList [], r')
          else elements f (d :: r') []
        | [] => None
        end
      else if (c =? 34)%N then
        match string_body (List.length r) r [] with
        | Some (t, r') => Some (JStr t, r')
        | None => None
        end
      else
        match keyword s with
        | Some x => Some x
        | None => number s
        end
    end
  end

with members (fuel : nat) (s : str) (acc : list (str * json))
  : option (json * str) :=
  match fuel with
  | O => None
  | S f =>
    match s with
    | c :: r =>
      if (c =? 34)%N then
        match string_body (List.length r) r [] with
        | Some (k, r1) =>
          match skip_ws r1 with
          | d :: r2 =>
            if (d =? 58)%N then
              match value f (skip_ws r2) with
              | Some (v, r3) =>
                let acc' := Dict.set k v acc in
                match skip_ws r3 with
                | e :: r4 =>
                  if (e =? 125)%N then Some (JDict acc', r4)
                  else if (e =? 44)%N then members f (skip_ws r4) acc'
                  else None
                | [] => None
                end
              | None => None
              end
            else None
          | [] => None
          end
        | None => None
        end
      else None
    | [] => None
    end
  end

with elements (fuel : nat) (s : str) (acc : list json)
  : option (json * str) :=
  match fuel with
  | O => None
  | S f =>
    match value f s with
    | Some (v, r) =>
      match skip_ws r with
      | e :: r' =>
        if (e =? 93)%N then Some (JList (rev (v :: acc)), r')
        else if (e =? 44)%N then elements f (skip_ws r') (v :: acc)
        else None
      | [] => None
      end
    | None => None
    end
  end.

Definition decode_error : exn :=
  Exn JSONDecodeError (lit "Expecting value: line 1 column 1 (char 0)").

Definition loads (s : str) : outcome json :=
  match value (2 * List.length s + 2) (skip_ws s) with
  | Some (v, r) =>
    match skip_ws r with
    | [] => Ok v
    | _ => Raise decode_error
    end
  | None => Raise decode_error
  end.

End JsonRef.

(** ** A concrete world

    The collaborators at their simplest: a two-page document, a model that
    answers [content], a spreadsheet service whose append has outcome
    [append], and the credential variable set to [google]. *)

Module Demo.

Definition environ (google : option str) (name : str) : option str :=
  if PyStr.eqb name (lit "GOOGLE_CREDENTIALS_B64") then google
  else if PyStr.eqb name (lit "SPREADSHEET_ID") then Some (lit "sheet-1")
  else if PyStr.eqb name (lit "TELEGRAM_BOT_TOKEN") then Some (lit "token")
  else if PyStr.eqb name (lit "DEEPSEEK_API_KEY") then Some (lit "key")
  else None.

Definition decode (s : str) : outcome str :=
  if PyStr.eqb s (lit "e30=") then Ok (lit "{}")
  else Raise (Exn (OtherError (lit "binascii.Error")) (lit "Incorrect padding")).

Definition make (content : str) (google : option str)
  (append : outcome unit) : world :=
  {| getenv := environ google;
     chat_openai := fun _ => Ok tt;
     application_build := fun _ => Ok tt;
     reply_text := fun _ _ => Ok tt;
     get_file := fun _ => Ok 1%N;
     download_as_bytearray := fun _ => Ok [37; 80; 68; 70]%N;
     named_temporary_file := Ok (lit "/tmp/tmpabc.pdf");
     tmp_write := fun _ _ => Ok tt;
     tmp_close := fun _ => Ok tt;
     pdf_load := fun _ => Ok [lit "Hello"; lit "World"];
     llm_invoke := fun _ => Ok content;
     json_loads := JsonRef.loads;
     str_of := fun v => lit "<" ++ type_name v ++ lit ">";
     b64decode_utf8 := decode;
     from_service_account_info := fun _ => Ok 7%N;
     build := fun _ => Ok 9%N;
     values_append := fun _ _ _ => append |}.

Definition pdf : document :=
  Document (Some (lit "application/pdf")) (lit "file-1") (Some (lit "f.pdf")).

Definition photo : document :=
  Document (Some (lit "image/png")) (lit "file-2") (Some (lit "p.png")).

(** The payload of the scenario: a type and a summary, nothing else. *)
Definition payload : str :=
  lit "{" ++ quoted (lit "тип") ++ lit ":" ++ quoted (lit "письмо")
  ++ lit "," ++ quoted (lit "резюме") ++ lit ":" ++ quoted (lit "ok")
  ++ lit "}".

Definition fenced : str := lit "```json" ++ nl ++ payload ++ nl ++ lit "```".

Definition record : list (str * json) :=
  [(lit "тип", JStr (lit "письмо")); (lit "резюме", JStr (lit "ok"))].

Definition timeout : exn :=
  Exn (OtherError (lit "TimeoutError")) (lit "timed out").

(** Free text instead of a payload. *)
Definition apology : str := lit "Sorry, I cannot analyze this document.".

Definition tmp : path := lit "/tmp/tmpabc.pdf".

Definition pages : list str := [lit "Hello"; lit "World"].

(** What the message of [record] reads. *)
Definition response : str :=
  join nl
    [ lit "✅ **Тип**: письмо";
      lit "👤 **Имя**: -";
      lit "💼 **Должность**: -";
      lit "🏙️ **Город**: -";
      lit "📅 **Дата**: -";
      lit "🏢 **Организация**: -";
      [];
      lit "📝 **Резюме**: ok" ].

(** The row of [record] with the file name of [pdf]. *)
Definition row : list json :=
  [ JStr (lit "f.pdf"); JStr (lit "письмо"); JStr []; JStr [];
    JStr []; JStr []; JStr []; JStr (lit "ok") ].

End Demo.

(** ** Vocabulary of the properties *)

(** The world [w] with a model that answers [content] to every prompt. *)
Definition answering (w : world) (content : str) : world :=
  {| getenv := getenv w;
     chat_openai := chat_openai w;
     application_build := application_build w;
     reply_text := reply_text w;
     get_file := get_file w;
     download_as_bytearray := download_as_bytearray w;
     named_temporary_file := named_temporary_file w;
     tmp_write := tmp_write w;
     tmp_close := tmp_close w;
     pdf_load := pdf_load w;
     llm_invoke := fun _ => Ok content;
     json_loads := json_loads w;
     str_of := str_of w;
     b64decode_utf8 := b64decode_utf8 w;
     from_service_account_info := from_service_account_info w;
     build := build w;
     values_append := values_append w |}.

(** The world [w] with the environment variable [name] set to [v], or unset
    for [None]. *)
Definition with_env (w : world) (name : str) (v : option str) : world :=
  {| getenv := fun n => if PyStr.eqb n name then v else getenv w n;
     chat_openai := chat_openai w;
     application_build := application_build w;
     reply_text := reply_text w;
     get_file := get_file w;
     download_as_bytearray := download_as_bytearray w;
     named_temporary_file := named_temporary_file w;
     tmp_write := tmp_write w;
     tmp_close := tmp_close w;
     pdf_load := pdf_load w;
     llm_invoke := llm_invoke w;
     json_loads := json_loads w;
     str_of := str_of w;
     b64decode_utf8 := b64decode_utf8 w;
     from_service_account_info := from_service_account_info w;
     build := build w;
     values_append := values_append w |}.

(** A payload between the opening marker of a json-fenced block (7
    characters) and the closing marker (3 characters). *)
Definition fenced (payload : str) : str :=
  lit "```json" ++ payload ++ lit "```".

(** The payload, trimmed, carries no fence marker of its own.  This is so for
    every JSON text: it begins with a bracket, a quote, a sign, a digit or a
    letter, and ends with a bracket, a quote, a digit or a letter
    ([loads_fence_free] proves it for the reader [JsonRef]). *)
Definition fence_free (payload : str) : Prop :=
  startswith (strip payload) (lit "```json") = false
  /\ endswith (strip payload) (lit "```") = false.

(** The value of a field of a record, [default] when the key is absent. *)
Definition field (d : list (str * json)) (k : str) (default : json) : json :=
  match Dict.lookup k d with
  | Some v => v
  | None => default
  end.

(** The facts of a record: absent, a mapping, or something else. *)
Definition facts_of (d : list (str * json)) : option (list (str * json)) :=
  match Dict.lookup (lit "факты") d with
  | None => Some []
  | Some (JDict f) => Some f
  | Some _ => None
  end.

Definition is_str (v : json) : bool :=
  match v with
  | JStr _ => true
  | _ => false
  end.

(** The key is absent or holds a string. *)
Definition str_or_absent (d : list (str * json)) (k : str) : Prop :=
  match Dict.lookup k d with
  | Some v => is_str v = true
  | None => True
  end.

(** What the message shows for a field: the value of a present field (a
    string as it is, another value through [str()]), a dash for an absent
    one. *)
Definition shown (w : world) (d : list (str * json)) (k : str) : str :=
  match Dict.lookup k d with
  | Some (JStr s) => s
  | Some v => str_of w v
  | None => lit "-"
  end.

(** [part] occurs in [s]. *)
Definition infix (part s : str) : Prop :=
  exists pre post, s = pre ++ part ++ post.

(** The calls [write_to_sheet] can make. *)
Definition sheet_event (e : event) : bool :=
  match e with
  | Ev (SheetsBuild _) _ | Ev (SheetsAppend _ _) _ | Ev (Print _) _ => true
  | _ => false
  end.

(** The request gets as far as the extracted text: the attachment is a PDF,
    the file is downloaded, written to [p] and loaded as [pages], and the two
    progress messages are delivered. *)
Record Extracted (w : world) (file : document) (tg : tg_file) (data : bytes)
  (p : path) (pages : list str) : Prop := {
  ex_pdf : is_pdf (mime_type file) = true;
  ex_receiving : reply_text w msg_receiving false = Ok tt;
  ex_file : get_file w (file_id file) = Ok tg;
  ex_bytes : download_as_bytearray w tg = Ok data;
  ex_create : named_temporary_file w = Ok p;
  ex_write : tmp_write w p data = Ok tt;
  ex_close : tmp_close w p = Ok tt;
  ex_load : pdf_load w p = Ok pages;
  ex_analysing : reply_text w msg_analysing false = Ok tt
}.

Definition extraction_calls (file : document) (tg : tg_file) (data : bytes)
  (p : path) : list event :=
  [ Ev (Reply msg_receiving false) true;
    Ev (GetFile (file_id file)) true;
    Ev (Download tg) true;
    Ev TmpCreate true;
    Ev (TmpWrite p data) true;
    Ev (TmpClose p) true;
    Ev (PdfLoad p) true;
    Ev (Reply msg_analysing false) true ].

(** The request gets as far as the call of [write_to_sheet]: the model
    answers [content], which parses to the record [d]; the message [response]
    is formatted and delivered. *)
Record Analysed (w : world) (file : document) (tg : tg_file) (data : bytes)
  (p : path) (pages : list str) (content : str) (d : list (str * json))
  (response : str) : Prop := {
  an_extracted : Extracted w file tg data p pages;
  an_content : llm_invoke w (prompt (join nl pages)) = Ok content;
  an_record : json_loads w (strip_fences content) = Ok (JDict d);
  an_response : format_response w (JDict d) = Ok response;
  an_reply : reply_text w response true = Ok tt
}.

Definition analysis_calls (file : document) (tg : tg_file) (data : bytes)
  (p : path) (pages : list str) (response : str) : list event :=
  extraction_calls file tg data p
  ++ [ Ev (LlmInvoke (prompt (join nl pages))) true;
       Ev (Reply response true) true ].

(** The record handed to [write_to_sheet]: the file name is attached. *)
Definition stored (file : document) (d : list (str * json))
  : list (str * json) :=
  Dict.set (lit "файл") (json_of_name (file_name file)) d.

(** A call that leaves temporary storage alone. *)
Definition harmless (e : event) : bool :=
  match e with
  | Ev (TmpWrite _ _) _ | Ev TmpCreate _ | Ev (Unlink _) _ => false
  | _ => true
  end.

(** A computation that only adds harmless calls: it changes neither the
    files in temporary storage nor [tmp_path]. *)
Definition quiet {A} (m : M A) : Prop :=
  forall st, exists evs,
    snd (m st) = State (calls st ++ evs) (files st) (tmp_path st)
    /\ forallb harmless evs = true.

(** A character that is neither white space nor a backtick. *)
Definition solid (c : N) : bool := negb (isspace c) && negb (c =? 96)%N.

(** Empty, or ending with a digit. *)
Definition digit_tail (t : str) : Prop :=
  t = [] \/ exists pre c, t = pre ++ [c] /\ JsonRef.is_digit c = true.

(** [r] is what remains of [s] after some prefix. *)
Definition suffix (r s : str) : Prop := exists pre, s = pre ++ r.

(** ** Fences, records, call kinds *)

Unset Implicit Arguments.

(** Empty, or beginning and ending with a character that is neither white
    space nor a backtick. *)
Definition compact (body : str) : bool :=
  match body with
  | [] => true
  | a :: _ => solid a && solid (last body 0%N)
  end.

(** The opening and the closing fence marker, each present or not. *)
Definition opening_marker (present : bool) : str :=
  if present then lit "```json" else [].

Definition closing_marker (present : bool) : str :=
  if present then lit "```" else [].

(** What [v.get] raises when [v] is not a dict. *)
Definition no_attribute_get (v : json) : exn :=
  Exn AttributeError
      (lit "'" ++ type_name v ++ lit "' object has no attribute 'get'").

Definition is_dict (v : json) : bool :=
  match v with
  | JDict _ => true
  | _ => false
  end.

(** The record can be shown and stored: it is a dict whose facts are absent
    or a dict. *)
Definition usable (v : json) : bool :=
  match v with
  | JDict d =>
    match Dict.lookup (lit "факты") d with
    | None | Some (JDict _) => true
    | Some _ => false
    end
  | _ => false
  end.

(** The value [.get] is first called on without success, when the record is
    not usable: the record itself, or its facts. *)
Definition culprit (v : json) : json :=
  match v with
  | JDict d =>
    match Dict.lookup (lit "факты") d with
    | Some x => x
    | None => v
    end
  | _ => v
  end.

(** The world [w] with the chat transport [f] for the replies. *)
Definition with_reply (w : world) (f : str -> bool -> outcome unit) : world :=
  {| getenv := getenv w;
     chat_openai := chat_openai w;
     application_build := application_build w;
     reply_text := f;
     get_file := get_file w;
     download_as_bytearray := download_as_bytearray w;
     named_temporary_file := named_temporary_file w;
     tmp_write := tmp_write w;
     tmp_close := tmp_close w;
     pdf_load := pdf_load w;
     llm_invoke := llm_invoke w;
     json_loads := json_loads w;
     str_of := str_of w;
     b64decode_utf8 := b64decode_utf8 w;
     from_service_account_info := from_service_account_info w;
     build := build w;
     values_append := values_append w |}.

(** A chat transport that refuses messages with Markdown. *)
Definition plain_only (text : str) (markdown : bool) : outcome unit :=
  if markdown
  then Raise (Exn (OtherError (lit "BadRequest")) (lit "Can't parse entities"))
  else Ok tt.

(** What the [except] clause of [handle_document] makes of the outcome [r]
    of the [try] block in state [st]. *)
Definition handled (w : world) (r : outcome unit) (st : state)
  : outcome unit * state :=
  match r with
  | Ok _ => (Ok tt, st)
  | Raise e =>
    (reply_text w (msg_error e) false,
     log (Reply (msg_error e) false)
         (is_ok (reply_text w (msg_error e) false)) st)
  end.

(** The external calls by kind. *)
Inductive kind : Type :=
| KReply | KGetFile | KDownload | KTmpCreate | KTmpWrite | KTmpClose
| KPdfLoad | KLlmInvoke | KSheetsBuild | KSheetsAppend | KPrint | KUnlink.

Definition kind_of (c : call) : kind :=
  match c with
  | Reply _ _ => KReply
  | GetFile _ => KGetFile
  | Download _ => KDownload
  | TmpCreate => KTmpCreate
  | TmpWrite _ _ => KTmpWrite
  | TmpClose _ => KTmpClose
  | PdfLoad _ => KPdfLoad
  | LlmInvoke _ => KLlmInvoke
  | SheetsBuild _ => KSheetsBuild
  | SheetsAppend _ _ => KSheetsAppend
  | Print _ => KPrint
  | Unlink _ => KUnlink
  end.

Definition kinds (evs : list event) : list kind :=
  map (fun e => match e with Ev c _ => kind_of c end) evs.

Definition kind_eq_dec (a b : kind) : {a = b} + {a <> b}.
Proof. decide equality. Defined.

(** [xs] is [ys] with some elements left out. *)
Inductive subseq {A : Type} : list A -> list A -> Prop :=
| subseq_nil : subseq [] []
| subseq_skip (y : A) (xs ys : list A) : subseq xs ys -> subseq xs (y :: ys)
| subseq_take (x : A) (xs ys : list A) :
    subseq xs ys -> subseq (x :: xs) (x :: ys).

(** The calls of a request that goes all the way, with the places of the
    printed error and of the error message. *)
Definition request_order : list kind :=
  [ KReply; KGetFile; KDownload; KTmpCreate; KTmpWrite; KTmpClose; KPdfLoad;
    KReply; KLlmInvoke; KReply; KSheetsBuild; KSheetsAppend; KPrint; KReply;
    KReply; KUnlink ].

(** The calls a computation adds are, by kind, among [seg], in that order. *)
Definition shaped {A : Type} (seg : list kind) (m : M A) : Prop :=
  forall st, exists evs,
    calls (snd (m st)) = calls st ++ evs /\ subseq (kinds evs) seg.

(** A value without the constants that are no JSON: the reader gives [nan],
    [inf] and [-inf] for [NaN], [Infinity] and [-Infinity] only, the text of
    a number literal begins with a digit or with a sign and a digit. *)
Fixpoint standard (v : json) : bool :=
  match v with
  | JFloat t =>
    negb (PyStr.eqb t (lit "nan") || PyStr.eqb t (lit "inf")
          || PyStr.eqb t (lit "-inf"))
  | JList items => forallb standard items
  | JDict items =>
    forallb (fun kv => let (_, x) := kv : str * json in standard x) items
  | _ => true
  end.

(** The words of the specification, syntactically valid JSON, read as the
    grammar of RFC 8259: the grammar of the reader [JsonRef] without the
    three constants that the CPython decoder adds to it. *)
Definition valid_json (s : str) : bool :=
  match JsonRef.loads s with
  | Ok v => standard v
  | Raise _ => false
  end.

(** A chat that cannot be reached. *)
Definition unreachable (text : str) (markdown : bool) : outcome unit :=
  Raise Demo.timeout.

(** A chat in which the error messages alone are not delivered. *)
Definition errors_only_fail (text : str) (markdown : bool) : outcome unit :=
  if startswith text (lit "❌") then Raise Demo.timeout else Ok tt.

Set Implicit Arguments.

(** * Properties *)

(** ** Strings *)

Lemma eqb_eq (a b : str) : PyStr.eqb a b = true <-> a = b.
Proof.
  unfold PyStr.eqb. destruct (list_eq_dec N.eq_dec a b); split; congruence.
Qed.

Lemma eqb_refl (a : str) : PyStr.eqb a a = true.
Proof. now apply eqb_eq. Qed.

Example lit_cyrillic : lit "тип" = [1090; 1080; 1087]%N.
Proof. reflexivity. Qed.

Example lit_emoji : lit "🏙️ **" = [127961; 65039; 32; 42; 42]%N.
Proof. reflexivity. Qed.

Example strip_example :
  strip (lit "
 {}	 ") = lit "{}".
Proof. reflexivity. Qed.

Lemma startswith_app (p s : str) : startswith (p ++ s) p = true.
Proof.
  induction p as [|c p IH]; simpl.
  - now destruct s.
  - now rewrite N.eqb_refl, IH.
Qed.

Lemma endswith_app (s p : str) : endswith (s ++ p) p = true.
Proof.
  unfold endswith. rewrite rev_app_distr. apply startswith_app.
Qed.

Lemma slice_from_app (p s : str) : slice_from (List.length p) (p ++ s) = s.
Proof.
  unfold slice_from. induction p; simpl; auto.
Qed.

Lemma slice_to_neg_app (s p : str) :
  slice_to_neg (List.length p) (s ++ p) = s.
Proof.
  unfold slice_to_neg. rewrite length_app.
  replace (List.length s + List.length p - List.length p)
    with (List.length s + 0) by lia.
  rewrite firstn_app_2. simpl. apply app_nil_r.
Qed.

Lemma lstrip_head (c : N) (s : str) :
  isspace c = false -> lstrip (c :: s) = c :: s.
Proof. intros H. simpl. now rewrite H. Qed.

Lemma lstrip_snoc (s : str) (c : N) :
  isspace c = false -> lstrip (s ++ [c]) = lstrip s ++ [c].
Proof.
  intros H. induction s as [|d s IH]; simpl.
  - now rewrite H.
  - destruct (isspace d); auto.
Qed.

Lemma rstrip_head (c : N) (s : str) :
  isspace c = false -> rstrip (c :: s) = c :: rstrip s.
Proof.
  intros H. unfold rstrip. simpl.
  rewrite lstrip_snoc by assumption.
  rewrite rev_app_distr. reflexivity.
Qed.

Lemma rstrip_snoc (s : str) (c : N) :
  isspace c = false -> rstrip (s ++ [c]) = s ++ [c].
Proof.
  intros H. unfold rstrip. rewrite rev_app_distr. simpl.
  rewrite H. simpl. now rewrite rev_involutive.
Qed.

(** What [lstrip] returns is empty or begins with a character that is not
    white space. *)
Lemma lstrip_fixed (s : str) : lstrip (lstrip s) = lstrip s.
Proof.
  induction s as [|c s IH]; simpl; auto.
  destruct (isspace c) eqn:E; auto.
  simpl. now rewrite E.
Qed.

Lemma rstrip_fixed (s : str) : rstrip (rstrip s) = rstrip s.
Proof.
  unfold rstrip. rewrite rev_involutive. now rewrite lstrip_fixed.
Qed.

Lemma lstrip_rstrip (s : str) : lstrip (rstrip (lstrip s)) = rstrip (lstrip s).
Proof.
  induction s as [|c s IH]; simpl; auto.
  destruct (isspace c) eqn:E; auto.
  rewrite rstrip_head by assumption. simpl. now rewrite E.
Qed.

Lemma strip_idempotent (s : str) : strip (strip s) = strip s.
Proof.
  unfold strip. rewrite lstrip_rstrip. apply rstrip_fixed.
Qed.

(** A text between two characters that are not white space is left as it is
    by [strip]. *)
Lemma strip_delimited (a b : N) (s : str) :
  isspace a = false -> isspace b = false ->
  strip (a :: s ++ [b]) = a :: s ++ [b].
Proof.
  intros Ha Hb. unfold strip. rewrite lstrip_head by assumption.
  change (a :: s ++ [b]) with ((a :: s) ++ [b]).
  now apply rstrip_snoc.
Qed.

(** ** Fence stripping *)

Lemma strip_fenced (p : str) : strip (fenced p) = fenced p.
Proof.
  unfold fenced.
  replace (lit "```json" ++ p ++ lit "```")
    with (96%N :: (lit "``json" ++ p ++ lit "``") ++ [96%N]).
  - now apply strip_delimited.
  - simpl. rewrite <- !app_assoc. reflexivity.
Qed.

Lemma strip_fences_fenced (p : str) : strip_fences (fenced p) = strip p.
Proof.
  unfold strip_fences. cbv zeta. rewrite strip_fenced.
  unfold fenced. rewrite startswith_app.
  pose proof (slice_from_app (lit "```json") (p ++ lit "```")) as E1.
  change (List.length (lit "```json")) with 7 in E1. rewrite E1.
  rewrite endswith_app.
  pose proof (slice_to_neg_app p (lit "```")) as E2.
  change (List.length (lit "```")) with 3 in E2. now rewrite E2.
Qed.

Lemma strip_fences_plain (p : str) :
  fence_free p -> strip_fences p = strip p.
Proof.
  intros [H1 H2]. unfold strip_fences. cbv zeta.
  rewrite H1, H2. apply strip_idempotent.
Qed.

Lemma analyze_document_answer (w : world) (text content : str) (st : state) :
  llm_invoke w (prompt text) = Ok content ->
  analyze_document w text st
  = (json_loads w (strip_fences content),
     log (LlmInvoke (prompt text)) true st).
Proof.
  intros H. unfold analyze_document, bind, perform, lift.
  now rewrite H.
Qed.

(** C3: a payload wrapped in the opening and the closing fence marker is
    handed to [json.loads] as the same text as the payload alone, so
    [analyze_document] returns the identical record (or fails alike) for the
    fenced and for the plain response. *)
Theorem fence_round_trip (w : world) (payload text : str) (st : state) :
  fence_free payload ->
  strip_fences (fenced payload) = strip_fences payload
  /\ analyze_document (answering w (fenced payload)) text st
     = analyze_document (answering w payload) text st.
Proof.
  intros H.
  assert (E : strip_fences (fenced payload) = strip_fences payload).
  { rewrite strip_fences_fenced. symmetry. now apply strip_fences_plain. }
  split; [exact E|].
  rewrite (@analyze_document_answer _ text (fenced payload)) by reflexivity.
  rewrite (@analyze_document_answer _ text payload) by reflexivity.
  simpl. now rewrite E.
Qed.

Lemma fence_round_trip_witness :
  fence_free (nl ++ Demo.payload ++ nl)
  /\ analyze_document
       (answering (Demo.make [] None (Ok tt)) (fenced (nl ++ Demo.payload ++ nl)))
       (lit "Hello") (fresh [])
     = analyze_document
         (answering (Demo.make [] None (Ok tt)) (nl ++ Demo.payload ++ nl))
         (lit "Hello") (fresh [])
  /\ fst (analyze_document
            (answering (Demo.make [] None (Ok tt))
                       (fenced (nl ++ Demo.payload ++ nl)))
            (lit "Hello") (fresh []))
     = Ok (JDict Demo.record).
Proof.
  assert (F : fence_free (nl ++ Demo.payload ++ nl)).
  { split; vm_compute; reflexivity. }
  split; [exact F|].
  split.
  - exact (proj2 (fence_round_trip (Demo.make [] None (Ok tt))
                                   (lit "Hello") (fresh []) F)).
  - vm_compute. reflexivity.
Defined.

(** ** The row and the message *)

Lemma py_get_dict (d : list (str * json)) (k : str) (default : json) :
  py_get (JDict d) k default = Ok (field d k default).
Proof.
  unfold py_get, field. now destruct (Dict.lookup k d).
Qed.

Lemma field_facts (d f : list (str * json)) :
  facts_of d = Some f -> field d (lit "факты") (JDict []) = JDict f.
Proof.
  unfold facts_of, field. intros H.
  destruct (Dict.lookup (lit "факты") d) as [[]|]; congruence.
Qed.

Lemma field_is_str (d : list (str * json)) (k : str) :
  str_or_absent d k -> is_str (field d k (JStr [])) = true.
Proof.
  unfold str_or_absent, field. now destruct (Dict.lookup k d).
Qed.

(** C2: the row of a record whose facts are absent or a mapping has exactly
    eight cells in the order file name, type, name, role, city, date,
    organization, summary; a missing field is the empty string at its
    position, and the cells are strings when the fields present are. *)
Theorem sheet_row_fixed (d f : list (str * json)) :
  facts_of d = Some f ->
  exists row,
    sheet_row (JDict d) = Ok row
    /\ row = [ field d (lit "файл") (JStr []);
               field d (lit "тип") (JStr []);
               field d (lit "имя") (JStr []);
               field f (lit "должность") (JStr []);
               field f (lit "город") (JStr []);
               field f (lit "дата") (JStr []);
               field f (lit "организация") (JStr []);
               field d (lit "резюме") (JStr []) ]
    /\ List.length row = 8
    /\ (Forall (str_or_absent d)
               [lit "файл"; lit "тип"; lit "имя"; lit "резюме"] ->
        Forall (str_or_absent f)
               [lit "должность"; lit "город"; lit "дата"; lit "организация"] ->
        forallb is_str row = true).
Proof.
  intros Hf. eexists. split; [|split; [reflexivity|split; [reflexivity|]]].
  - unfold sheet_row. rewrite !py_get_dict. cbn [rbind].
    rewrite (field_facts d Hf). rewrite !py_get_dict. reflexivity.
  - intros Hd Hs.
    repeat match goal with
           | H : Forall _ (_ :: _) |- _ => inversion H; subst; clear H
           end.
    cbn [forallb]. rewrite !field_is_str by assumption. reflexivity.
Qed.

(** The scenario of the fenced answer: the record carries a type and a
    summary, the handler adds the file name. *)
Lemma sheet_row_fixed_witness :
  json_loads (Demo.make Demo.fenced None (Ok tt)) (strip_fences Demo.fenced)
  = Ok (JDict Demo.record)
  /\ facts_of (Dict.set (lit "файл") (JStr (lit "f.pdf")) Demo.record)
     = Some []
  /\ sheet_row (JDict (Dict.set (lit "файл") (JStr (lit "f.pdf")) Demo.record))
     = Ok [ JStr (lit "f.pdf"); JStr (lit "письмо"); JStr []; JStr [];
            JStr []; JStr []; JStr []; JStr (lit "ok") ].
Proof.
  split; [vm_compute; reflexivity|].
  split; [vm_compute; reflexivity|].
  destruct (@sheet_row_fixed
              (Dict.set (lit "файл") (JStr (lit "f.pdf")) Demo.record) []
              eq_refl) as (row & Hrow & Heq & _ & _).
  rewrite Hrow, Heq. vm_compute. reflexivity.
Defined.

Lemma py_str_field (w : world) (d : list (str * json)) (k : str) :
  py_str w (field d k (JStr (lit "-"))) = shown w d k.
Proof.
  unfold field, shown, py_str.
  destruct (Dict.lookup k d) as [[]|]; reflexivity.
Qed.

Lemma infix_head (a b post : str) : infix (a ++ b) (a ++ b ++ post).
Proof. exists [], post. simpl. apply app_assoc. Qed.

Lemma infix_last (a b : str) : infix (a ++ b) (a ++ b).
Proof. exists [], []. simpl. now rewrite app_nil_r. Qed.

Lemma infix_tail (part pre s : str) : infix part s -> infix part (pre ++ s).
Proof.
  intros (x & y & ->). exists (pre ++ x), y. apply app_assoc.
Qed.

(** C8: the message of a record whose facts are absent or a mapping is the
    fixed layout with, after each label, the value of the field when it is
    present and a dash when it is absent. *)
Theorem format_response_layout (w : world) (d f : list (str * json)) :
  facts_of d = Some f ->
  exists response,
    format_response w (JDict d) = Ok response
    /\ response
       = lit "✅ **Тип**: " ++ shown w d (lit "тип") ++ nl
         ++ lit "👤 **Имя**: " ++ shown w d (lit "имя") ++ nl
         ++ lit "💼 **Должность**: " ++ shown w f (lit "должность") ++ nl
         ++ lit "🏙️ **Город**: " ++ shown w f (lit "город") ++ nl
         ++ lit "📅 **Дата**: " ++ shown w f (lit "дата") ++ nl
         ++ lit "🏢 **Организация**: " ++ shown w f (lit "организация")
         ++ nl ++ nl
         ++ lit "📝 **Резюме**: " ++ shown w d (lit "резюме")
    /\ Forall (fun line => infix line response)
         [ lit "✅ **Тип**: " ++ shown w d (lit "тип");
           lit "👤 **Имя**: " ++ shown w d (lit "имя");
           lit "💼 **Должность**: " ++ shown w f (lit "должность");
           lit "🏙️ **Город**: " ++ shown w f (lit "город");
           lit "📅 **Дата**: " ++ shown w f (lit "дата");
           lit "🏢 **Организация**: " ++ shown w f (lit "организация");
           lit "📝 **Резюме**: " ++ shown w d (lit "резюме") ].
Proof.
  intros Hf. eexists. split; [|split; [reflexivity|]].
  - unfold format_response. rewrite !py_get_dict. cbn [rbind].
    rewrite (field_facts d Hf). rewrite !py_get_dict. cbn [rbind].
    rewrite !py_str_field. reflexivity.
  - repeat (apply Forall_cons || apply Forall_nil).
    + apply infix_head.
    + do 3 apply infix_tail. apply infix_head.
    + do 6 apply infix_tail. apply infix_head.
    + do 9 apply infix_tail. apply infix_head.
    + do 12 apply infix_tail. apply infix_head.
    + do 15 apply infix_tail. apply infix_head.
    + do 19 apply infix_tail. apply infix_last.
Qed.

Lemma format_response_layout_witness :
  facts_of Demo.record = Some []
  /\ format_response (Demo.make [] None (Ok tt)) (JDict Demo.record)
     = Ok (join nl
             [ lit "✅ **Тип**: письмо";
               lit "👤 **Имя**: -";
               lit "💼 **Должность**: -";
               lit "🏙️ **Город**: -";
               lit "📅 **Дата**: -";
               lit "🏢 **Организация**: -";
               [];
               lit "📝 **Резюме**: ok" ]).
Proof.
  split; [reflexivity|].
  destruct (@format_response_layout (Demo.make [] None (Ok tt))
              Demo.record [] eq_refl) as (r & Hr & Heq & _).
  rewrite Hr, Heq. vm_compute. reflexivity.
Defined.

(** ** The handler *)

(** Unfolds the monad and the steps of [handle_document] down to the external
    calls; [write_to_sheet], the prompt and the pure helpers stay folded. *)
Ltac exec :=
  unfold run, handle_document, pipeline, analyze_document, write_tmp,
    create_tmp, bind_tmp_path, cleanup, unlink, reply, try_finally,
    try_except, bind, perform, lift, ret, log, fresh;
  cbn [calls files tmp_path app is_ok negb fst snd].

Ltac use H :=
  rewrite H; cbn [calls files tmp_path app is_ok negb fst snd].

Lemma write_to_sheet_unfold (w : world) (data : json) (sheet_id : option str)
  (st : state) :
  write_to_sheet w data sheet_id st
  = match get_google_creds w with
    | Raise e => (Ok tt, log (Print (log_line e)) true st)
    | Ok c =>
      match build w c with
      | Raise e =>
        (Ok tt, log (Print (log_line e)) true (log (SheetsBuild c) false st))
      | Ok sv =>
        match sheet_row data with
        | Raise e =>
          (Ok tt, log (Print (log_line e)) true (log (SheetsBuild c) true st))
        | Ok row =>
          match values_append w sv sheet_id row with
          | Ok _ =>
            (Ok tt, log (SheetsAppend sheet_id row) true
                        (log (SheetsBuild c) true st))
          | Raise e =>
            (Ok tt, log (Print (log_line e)) true
                        (log (SheetsAppend sheet_id row) false
                             (log (SheetsBuild c) true st)))
          end
        end
      end
    end.
Proof.
  unfold write_to_sheet, try_except, bind, perform, lift.
  destruct (get_google_creds w) as [c|e]; [|reflexivity].
  destruct (build w c) as [sv|e]; [|reflexivity]. cbn [is_ok].
  destruct (sheet_row data) as [row|e]; [|reflexivity].
  destruct (values_append w sv sheet_id row) as [[]|e]; reflexivity.
Qed.

(** [write_to_sheet] always returns: it only adds calls of its own and leaves
    temporary storage and [tmp_path] alone. *)
Lemma write_to_sheet_returns (w : world) (data : json)
  (sheet_id : option str) (st : state) :
  exists evs,
    write_to_sheet w data sheet_id st
    = (Ok tt, State (calls st ++ evs) (files st) (tmp_path st))
    /\ forallb sheet_event evs = true.
Proof.
  rewrite write_to_sheet_unfold. unfold log. cbn [calls files tmp_path].
  destruct (get_google_creds w) as [c|e].
  2:{ eexists. split; reflexivity. }
  destruct (build w c) as [sv|e].
  2:{ eexists. split; [rewrite <- app_assoc|]; reflexivity. }
  destruct (sheet_row data) as [row|e].
  2:{ eexists. split; [rewrite <- app_assoc|]; reflexivity. }
  destruct (values_append w sv sheet_id row) as [[]|e].
  - eexists. split; [rewrite <- app_assoc|]; reflexivity.
  - eexists. split; [rewrite <- !app_assoc|]; reflexivity.
Qed.

(** C7: an attachment whose declared content type is not PDF gets the
    rejection message and nothing else: the reply is the only call of the
    request, so there is no download, no temporary file, no extraction and no
    analysis. *)
Theorem non_pdf_rejected (w : world) (file : document) (fs : list path) :
  is_pdf (mime_type file) = false ->
  run w file fs
  = (reply_text w msg_rejection false,
     State [Ev (Reply msg_rejection false)
               (is_ok (reply_text w msg_rejection false))] fs None).
Proof.
  intros H. exec. use H. reflexivity.
Qed.

Lemma non_pdf_rejected_witness :
  is_pdf (mime_type Demo.photo) = false
  /\ run (Demo.make Demo.fenced None (Ok tt)) Demo.photo []
     = (Ok tt, State [Ev (Reply msg_rejection false) true] [] None).
Proof.
  split; [reflexivity|].
  exact (@non_pdf_rejected (Demo.make Demo.fenced None (Ok tt))
                           Demo.photo [] eq_refl).
Defined.

Lemma remove_file_head (p : path) (fs : list path) :
  remove_file p (p :: fs) = Some fs.
Proof. simpl. now rewrite eqb_refl. Qed.


Lemma demo_extracted (content : str) (google : option str)
  (append : outcome unit) :
  Extracted (Demo.make content google append) Demo.pdf 1%N [37; 80; 68; 70]%N
            Demo.tmp Demo.pages.
Proof. split; vm_compute; reflexivity. Qed.


(** From the call of [write_to_sheet] on: whatever calls [evs] it makes, the
    confirmation is sent next, then the temporary file is removed; an error
    message follows the confirmation only when the confirmation itself cannot
    be delivered. *)
Lemma run_analysed (w : world) (file : document) (tg : tg_file)
  (data : bytes) (p : path) (pages : list str) (content : str)
  (d : list (str * json)) (response : str) (fs : list path)
  (evs : list event) :
  Analysed w file tg data p pages content d response ->
  write_to_sheet w (JDict (stored file d)) (SPREADSHEET_ID w)
    (State (analysis_calls file tg data p pages response) (p :: fs) (Some p))
  = (Ok tt,
     State (analysis_calls file tg data p pages response ++ evs)
           (p :: fs) (Some p)) ->
  run w file fs
  = (match reply_text w msg_saved false with
     | Ok _ => Ok tt
     | Raise e => reply_text w (msg_error e) false
     end,
     State ((analysis_calls file tg data p pages response ++ evs)
            ++ Ev (Reply msg_saved false)
                  (is_ok (reply_text w msg_saved false))
               :: match reply_text w msg_saved false with
                  | Ok _ => []
                  | Raise e =>
                    [Ev (Reply (msg_error e) false)
                        (is_ok (reply_text w (msg_error e) false))]
                  end
               ++ [Ev (Unlink p) true])
           fs (Some p)).
Proof.
  intros [[Hpdf Hrecv Hfile Hbytes Hcreate Hwrite Hclose Hload Hnote]
            Hllm Hjson Hfmt Hreply] Hsheet.
  unfold analysis_calls, extraction_calls in *. cbn [app] in Hsheet.
  exec. use Hpdf. use Hrecv. use Hfile. use Hbytes. use Hcreate.
  use Hwrite. use Hclose. use Hload. use Hnote. use Hllm. use Hjson.
  use Hfmt. use Hreply. cbn [py_setitem].
  fold (stored file d). rewrite Hsheet.
  cbn [calls files tmp_path app is_ok].
  destruct (reply_text w msg_saved false) as [[]|e'];
    cbn [calls files tmp_path app is_ok].
  - rewrite remove_file_head. cbn [calls files tmp_path].
    rewrite <- !app_assoc. reflexivity.
  - destruct (reply_text w (msg_error e') false) as [[]|e''];
      cbn [calls files tmp_path app is_ok];
      rewrite remove_file_head; cbn [calls files tmp_path];
      rewrite <- !app_assoc; reflexivity.
Qed.

(** C6: when the append raises, [write_to_sheet] prints the error and returns
    normally; in the handler the analysis reply has been delivered before,
    the confirmation follows, no error message is sent, and the handler
    returns normally. *)
Theorem append_error_swallowed (w : world) (file : document) (tg : tg_file)
  (data : bytes) (p : path) (pages : list str) (content : str)
  (d : list (str * json)) (response : str) (fs : list path)
  (c : creds) (sv : service) (row : list json) (e : exn) :
  Analysed w file tg data p pages content d response ->
  get_google_creds w = Ok c ->
  build w c = Ok sv ->
  sheet_row (JDict (stored file d)) = Ok row ->
  values_append w sv (SPREADSHEET_ID w) row = Raise e ->
  reply_text w msg_saved false = Ok tt ->
  (forall st,
      write_to_sheet w (JDict (stored file d)) (SPREADSHEET_ID w) st
      = (Ok tt,
         State (calls st
                ++ [ Ev (SheetsBuild c) true;
                     Ev (SheetsAppend (SPREADSHEET_ID w) row) false;
                     Ev (Print (log_line e)) true ])
               (files st) (tmp_path st)))
  /\ run w file fs
     = (Ok tt,
        State (analysis_calls file tg data p pages response
               ++ [ Ev (SheetsBuild c) true;
                    Ev (SheetsAppend (SPREADSHEET_ID w) row) false;
                    Ev (Print (log_line e)) true;
                    Ev (Reply msg_saved false) true;
                    Ev (Unlink p) true ])
              fs (Some p)).
Proof.
  intros Han Hcreds Hbuild Hrow Happend Hsaved.
  assert (Hsheet : forall st,
      write_to_sheet w (JDict (stored file d)) (SPREADSHEET_ID w) st
      = (Ok tt,
         State (calls st
                ++ [ Ev (SheetsBuild c) true;
                     Ev (SheetsAppend (SPREADSHEET_ID w) row) false;
                     Ev (Print (log_line e)) true ])
               (files st) (tmp_path st))).
  { intros st. rewrite write_to_sheet_unfold.
    rewrite Hcreds, Hbuild, Hrow, Happend. unfold log.
    cbn [calls files tmp_path]. rewrite <- !app_assoc. reflexivity. }
  split; [exact Hsheet|].
  pose proof (Hsheet (State (analysis_calls file tg data p pages response)
                            (p :: fs) (Some p))) as H0.
  cbn [calls files tmp_path] in H0.
  rewrite (@run_analysed w file tg data p pages content d response fs _
             Han H0).
  rewrite Hsaved. cbn [is_ok app]. rewrite <- !app_assoc. reflexivity.
Qed.

(** C9: once [write_to_sheet] is called, the confirmation is the next message
    sent, whatever happened inside: the calls made in between are those of
    [write_to_sheet] (credentials, append, the printed error) and none of
    them is a reply. *)
Theorem saved_message_unconditional (w : world) (file : document)
  (tg : tg_file) (data : bytes) (p : path) (pages : list str)
  (content : str) (d : list (str * json)) (response : str)
  (fs : list path) :
  Analysed w file tg data p pages content d response ->
  exists evs rest,
    forallb sheet_event evs = true
    /\ calls (snd (run w file fs))
       = analysis_calls file tg data p pages response
         ++ evs
         ++ Ev (Reply msg_saved false) (is_ok (reply_text w msg_saved false))
            :: rest
    /\ (reply_text w msg_saved false = Ok tt ->
        rest = [Ev (Unlink p) true] /\ fst (run w file fs) = Ok tt).
Proof.
  intros Han.
  destruct (write_to_sheet_returns w (JDict (stored file d))
              (SPREADSHEET_ID w)
              (State (analysis_calls file tg data p pages response)
                     (p :: fs) (Some p)))
    as (evs & Hsheet & Hevs).
  cbn [calls files tmp_path] in Hsheet.
  rewrite (@run_analysed w file tg data p pages content d response fs evs
             Han Hsheet).
  cbn [fst snd calls].
  exists evs. eexists. split; [exact Hevs|]. split.
  - rewrite <- app_assoc. reflexivity.
  - intros Hsaved. rewrite Hsaved. split; reflexivity.
Qed.

Lemma demo_analysed (google : option str) (append : outcome unit) :
  Analysed (Demo.make Demo.fenced google append) Demo.pdf 1%N
           [37; 80; 68; 70]%N Demo.tmp Demo.pages Demo.fenced Demo.record
           Demo.response.
Proof.
  split; [apply demo_extracted| | | |]; vm_compute; reflexivity.
Qed.

Lemma append_error_swallowed_witness :
  Analysed (Demo.make Demo.fenced (Some (lit "e30=")) (Raise Demo.timeout))
           Demo.pdf 1%N [37; 80; 68; 70]%N Demo.tmp Demo.pages Demo.fenced
           Demo.record Demo.response
  /\ values_append
       (Demo.make Demo.fenced (Some (lit "e30=")) (Raise Demo.timeout))
       9%N (Some (lit "sheet-1")) Demo.row
     = Raise Demo.timeout
  /\ run (Demo.make Demo.fenced (Some (lit "e30=")) (Raise Demo.timeout))
         Demo.pdf []
     = (Ok tt,
        State (analysis_calls Demo.pdf 1%N [37; 80; 68; 70]%N Demo.tmp
                              Demo.pages Demo.response
               ++ [ Ev (SheetsBuild 7%N) true;
                    Ev (SheetsAppend (Some (lit "sheet-1")) Demo.row) false;
                    Ev (Print (log_line Demo.timeout)) true;
                    Ev (Reply msg_saved false) true;
                    Ev (Unlink Demo.tmp) true ])
              [] (Some Demo.tmp)).
Proof.
  split; [apply demo_analysed|]. split; [reflexivity|].
  assert (C : get_google_creds
                (Demo.make Demo.fenced (Some (lit "e30=")) (Raise Demo.timeout))
              = Ok 7%N) by (vm_compute; reflexivity).
  assert (R : sheet_row (JDict (stored Demo.pdf Demo.record)) = Ok Demo.row)
    by (vm_compute; reflexivity).
  assert (S : SPREADSHEET_ID
                (Demo.make Demo.fenced (Some (lit "e30=")) (Raise Demo.timeout))
              = Some (lit "sheet-1")) by (vm_compute; reflexivity).
  pose proof (proj2 (@append_error_swallowed
                       (Demo.make Demo.fenced (Some (lit "e30="))
                                  (Raise Demo.timeout))
                       Demo.pdf 1%N [37; 80; 68; 70]%N Demo.tmp Demo.pages
                       Demo.fenced Demo.record Demo.response [] 7%N 9%N
                       Demo.row Demo.timeout
                       (demo_analysed _ _) C eq_refl R eq_refl eq_refl)) as H.
  rewrite S in H. exact H.
Defined.

Lemma saved_message_unconditional_witness :
  Analysed (Demo.make Demo.fenced None (Raise Demo.timeout))
           Demo.pdf 1%N [37; 80; 68; 70]%N Demo.tmp Demo.pages Demo.fenced
           Demo.record Demo.response
  /\ exists evs rest,
       forallb sheet_event evs = true
       /\ calls (snd (run (Demo.make Demo.fenced None (Raise Demo.timeout))
                          Demo.pdf []))
          = analysis_calls Demo.pdf 1%N [37; 80; 68; 70]%N Demo.tmp
                           Demo.pages Demo.response
            ++ evs ++ Ev (Reply msg_saved false) true :: rest.
Proof.
  split; [apply demo_analysed|].
  destruct (@saved_message_unconditional
              (Demo.make Demo.fenced None (Raise Demo.timeout))
              Demo.pdf 1%N [37; 80; 68; 70]%N Demo.tmp Demo.pages
              Demo.fenced Demo.record Demo.response []
              (demo_analysed _ _))
    as (evs & rest & H1 & H2 & _).
  exists evs, rest. split; [exact H1|exact H2].
Defined.

(** ** The credential *)

Lemma startup_reads (w : world) :
  startup w
  = rbind (chat_openai w (getenv w (lit "DEEPSEEK_API_KEY")))
          (fun _ => application_build w (getenv w (lit "TELEGRAM_BOT_TOKEN"))).
Proof. reflexivity. Qed.

(** C4, as the code has it: a missing credential (the variable unset or
    empty) is no start-up error, start-up does not read the variable; it is
    raised by [get_google_creds] inside [write_to_sheet], on each request,
    where it is caught and printed: nothing is appended and
    [write_to_sheet] returns normally. *)
Theorem missing_credential_per_request (w : world) :
  getenv w (lit "GOOGLE_CREDENTIALS_B64") = None
  \/ getenv w (lit "GOOGLE_CREDENTIALS_B64") = Some [] ->
  (forall v, startup (with_env w (lit "GOOGLE_CREDENTIALS_B64") v) = startup w)
  /\ get_google_creds w = Raise unset_message
  /\ (forall data sheet_id st,
         write_to_sheet w data sheet_id st
         = (Ok tt, log (Print (log_line unset_message)) true st)).
Proof.
  intros H.
  assert (G : get_google_creds w = Raise unset_message).
  { unfold get_google_creds. destruct H as [-> | ->]; reflexivity. }
  split; [|split].
  - intros v. rewrite !startup_reads. unfold with_env. cbn [getenv
      chat_openai application_build].
    replace (PyStr.eqb (lit "DEEPSEEK_API_KEY") (lit "GOOGLE_CREDENTIALS_B64"))
      with false by (vm_compute; reflexivity).
    replace (PyStr.eqb (lit "TELEGRAM_BOT_TOKEN")
                       (lit "GOOGLE_CREDENTIALS_B64"))
      with false by (vm_compute; reflexivity).
    reflexivity.
  - exact G.
  - intros data sheet_id st. rewrite write_to_sheet_unfold. now rewrite G.
Qed.

Lemma missing_credential_per_request_witness :
  getenv (Demo.make Demo.fenced None (Ok tt)) (lit "GOOGLE_CREDENTIALS_B64")
  = None
  /\ startup (Demo.make Demo.fenced None (Ok tt)) = Ok tt
  /\ write_to_sheet (Demo.make Demo.fenced None (Ok tt))
                    (JDict Demo.record) (Some (lit "sheet-1")) (fresh [])
     = (Ok tt, State [Ev (Print (log_line unset_message)) true] [] None).
Proof.
  split; [vm_compute; reflexivity|]. split; [vm_compute; reflexivity|].
  assert (H : getenv (Demo.make Demo.fenced None (Ok tt))
                     (lit "GOOGLE_CREDENTIALS_B64") = None
              \/ getenv (Demo.make Demo.fenced None (Ok tt))
                        (lit "GOOGLE_CREDENTIALS_B64") = Some [])
    by (left; vm_compute; reflexivity).
  rewrite (proj2 (proj2 (@missing_credential_per_request
                           (Demo.make Demo.fenced None (Ok tt)) H))).
  reflexivity.
Defined.

(** C4, as the specification states it, fails: with the credential unset start-up
    succeeds, and the error is raised and handled while a request is
    processed: it is printed by [write_to_sheet], between the analysis reply
    and the confirmation. *)
Lemma missing_credential_not_fatal :
  getenv (Demo.make Demo.fenced None (Ok tt)) (lit "GOOGLE_CREDENTIALS_B64")
  = None
  /\ startup (Demo.make Demo.fenced None (Ok tt)) = Ok tt
  /\ get_google_creds (Demo.make Demo.fenced None (Ok tt))
     = Raise unset_message
  /\ run (Demo.make Demo.fenced None (Ok tt)) Demo.pdf []
     = (Ok tt,
        State (analysis_calls Demo.pdf 1%N [37; 80; 68; 70]%N Demo.tmp
                              Demo.pages Demo.response
               ++ [ Ev (Print (log_line unset_message)) true;
                    Ev (Reply msg_saved false) true;
                    Ev (Unlink Demo.tmp) true ])
              [] (Some Demo.tmp)).
Proof.
  repeat split; vm_compute; reflexivity.
Qed.

(** ** Scenarios *)

(** Two pages are joined by a newline, in order. *)
Example pages_joined : join nl Demo.pages = lit "Hello" ++ nl ++ lit "World".
Proof. vm_compute. reflexivity. Qed.

(** The fenced answer, all collaborators well: the row of the record with
    the file name is appended, between the analysis reply and the
    confirmation. *)
Example fenced_answer_stored :
  run (Demo.make Demo.fenced (Some (lit "e30=")) (Ok tt)) Demo.pdf []
  = (Ok tt,
     State (analysis_calls Demo.pdf 1%N [37; 80; 68; 70]%N Demo.tmp
                           Demo.pages Demo.response
            ++ [ Ev (SheetsBuild 7%N) true;
                 Ev (SheetsAppend (Some (lit "sheet-1")) Demo.row) true;
                 Ev (Reply msg_saved false) true;
                 Ev (Unlink Demo.tmp) true ])
           [] (Some Demo.tmp)).
Proof. vm_compute. reflexivity. Qed.

(** When the write to the temporary file itself raises, [tmp_path] is never
    bound: the error is reported and the file created stays in temporary
    storage. *)
Remark failed_write_leaves_file (w : world) (file : document)
  (fs : list path) (tg : tg_file) (data : bytes) (p : path) (e : exn) :
  is_pdf (mime_type file) = true ->
  reply_text w msg_receiving false = Ok tt ->
  get_file w (file_id file) = Ok tg ->
  download_as_bytearray w tg = Ok data ->
  named_temporary_file w = Ok p ->
  tmp_write w p data = Raise e ->
  tmp_close w p = Ok tt ->
  run w file fs
  = (reply_text w (msg_error e) false,
     State [ Ev (Reply msg_receiving false) true;
             Ev (GetFile (file_id file)) true;
             Ev (Download tg) true;
             Ev TmpCreate true;
             Ev (TmpWrite p data) false;
             Ev (TmpClose p) true;
             Ev (Reply (msg_error e) false)
                (is_ok (reply_text w (msg_error e) false)) ]
           (p :: fs) None).
Proof.
  intros Hpdf Hrecv Hfile Hbytes Hcreate Hwrite Hclose.
  exec. use Hpdf. use Hrecv. use Hfile. use Hbytes. use Hcreate.
  use Hwrite. use Hclose.
  destruct (reply_text w (msg_error e) false) as [[]|e'];
    cbn [calls files tmp_path app is_ok]; reflexivity.
Qed.

(** ** The temporary file *)

Lemma quiet_ret {A} (a : A) : quiet (ret a).
Proof.
  intros st. exists []. rewrite app_nil_r. now destruct st.
Qed.

Lemma quiet_lift {A} (r : outcome A) : quiet (lift r).
Proof.
  intros st. exists []. rewrite app_nil_r. now destruct st.
Qed.

Lemma quiet_perform {A} (c : call) (r : outcome A) :
  harmless (Ev c true) = true -> quiet (perform c r).
Proof.
  intros H st. exists [Ev c (is_ok r)]. split; [reflexivity|].
  destruct c; try discriminate; reflexivity.
Qed.

Lemma quiet_bind {A B} (m : M A) (k : A -> M B) :
  quiet m -> (forall a, quiet (k a)) -> quiet (bind m k).
Proof.
  intros Hm Hk st. unfold bind.
  destruct (Hm st) as (evs1 & E1 & F1).
  destruct (m st) as [[a|e] st1]; cbn [snd] in E1; subst st1.
  - destruct (Hk a (State (calls st ++ evs1) (files st) (tmp_path st)))
      as (evs2 & E2 & F2).
    cbn [calls files tmp_path] in E2.
    exists (evs1 ++ evs2). rewrite E2, app_assoc, forallb_app, F1, F2.
    now split.
  - exists evs1. now split.
Qed.

Lemma quiet_try_except {A} (m : M A) (h : exn -> M A) :
  quiet m -> (forall e, quiet (h e)) -> quiet (try_except m h).
Proof.
  intros Hm Hh st. unfold try_except.
  destruct (Hm st) as (evs1 & E1 & F1).
  destruct (m st) as [[a|e] st1]; cbn [snd] in E1; subst st1.
  - exists evs1. now split.
  - destruct (Hh e (State (calls st ++ evs1) (files st) (tmp_path st)))
      as (evs2 & E2 & F2).
    cbn [calls files tmp_path] in E2.
    exists (evs1 ++ evs2). rewrite E2, app_assoc, forallb_app, F1, F2.
    now split.
Qed.

Lemma quiet_reply (w : world) (text : str) (markdown : bool) :
  quiet (reply w text markdown).
Proof. now apply quiet_perform. Qed.

Lemma quiet_write_to_sheet (w : world) (data : json) (sheet_id : option str) :
  quiet (write_to_sheet w data sheet_id).
Proof.
  unfold write_to_sheet.
  apply quiet_try_except; [|intros e; now apply quiet_perform].
  apply quiet_bind; [apply quiet_lift|intros c].
  apply quiet_bind; [now apply quiet_perform|intros sv].
  apply quiet_bind; [apply quiet_lift|intros row].
  now apply quiet_perform.
Qed.

Lemma quiet_analyze_document (w : world) (text : str) :
  quiet (analyze_document w text).
Proof.
  unfold analyze_document.
  apply quiet_bind; [now apply quiet_perform|intros c]. apply quiet_lift.
Qed.

(** What the [with] block does to temporary storage: nothing when the file
    cannot be created; otherwise the file [p] exists afterwards, and
    [tmp_path] is bound to it exactly when the write returned. *)
Lemma write_tmp_eq (w : world) (data : bytes) (st : state) :
  write_tmp w data st
  = match named_temporary_file w with
    | Raise e => (Raise e, log TmpCreate false st)
    | Ok p =>
      match tmp_write w p data with
      | Ok _ =>
        (match tmp_close w p with Ok _ => Ok p | Raise e => Raise e end,
         State (calls st
                ++ [ Ev TmpCreate true; Ev (TmpWrite p data) true;
                     Ev (TmpClose p) (is_ok (tmp_close w p)) ])
               (p :: files st) (Some p))
      | Raise e =>
        (match tmp_close w p with Ok _ => Raise e | Raise e' => Raise e' end,
         State (calls st
                ++ [ Ev TmpCreate true; Ev (TmpWrite p data) false;
                     Ev (TmpClose p) (is_ok (tmp_close w p)) ])
               (p :: files st) (tmp_path st))
      end
    end.
Proof.
  unfold write_tmp, create_tmp, bind_tmp_path, try_finally, bind, perform,
    ret, log.
  destruct (named_temporary_file w) as [p|e]; [|reflexivity].
  cbn [calls files tmp_path].
  destruct (tmp_write w p data) as [[]|e]; cbn [calls files tmp_path is_ok];
    destruct (tmp_close w p) as [[]|e']; cbn [calls files tmp_path is_ok];
    rewrite <- !app_assoc; reflexivity.
Qed.

Lemma bind_perform {A B} (c : call) (r : outcome A) (k : A -> M B)
  (st : state) :
  bind (perform c r) k st
  = match r with
    | Ok a => k a (log c true st)
    | Raise e => (Raise e, log c false st)
    end.
Proof. unfold bind, perform. now destruct r. Qed.

(** The steps of [pipeline] after the [with] block. *)
Lemma quiet_after_tmp (w : world) (file : document) (path : path) :
  quiet (pages <- perform (PdfLoad path) (pdf_load w path) ;;
         let full_text := join nl pages in
         reply w msg_analysing false ;;
         result <- analyze_document w full_text ;;
         response <- lift (format_response w result) ;;
         reply w response true ;;
         result <- lift (py_setitem result (lit "файл")
                                    (json_of_name (file_name file))) ;;
         write_to_sheet w result (SPREADSHEET_ID w) ;;
         reply w msg_saved false).
Proof.
  apply quiet_bind; [now apply quiet_perform|intros pages]. cbv zeta.
  apply quiet_bind; [apply quiet_reply|intros _].
  apply quiet_bind; [apply quiet_analyze_document|intros result].
  apply quiet_bind; [apply quiet_lift|intros response].
  apply quiet_bind; [apply quiet_reply|intros _].
  apply quiet_bind; [apply quiet_lift|intros result'].
  apply quiet_bind; [apply quiet_write_to_sheet|intros _].
  apply quiet_reply.
Qed.

Lemma harmless_no_write (evs : list event) (q : path) (d : bytes) :
  forallb harmless evs = true -> ~ In (Ev (TmpWrite q d) true) evs.
Proof.
  intros H Hin. rewrite forallb_forall in H.
  specialize (H _ Hin). discriminate.
Qed.

Ltac in_cases H :=
  repeat rewrite in_app_iff in H; cbn [In] in H;
  repeat match type of H with
         | _ \/ _ => destruct H as [H|H]
         end;
  try contradiction; try discriminate.

(** The state in which [pipeline] ends: [tmp_path] is bound exactly when a
    write to temporary storage returned, to the file written, which is then
    the one file added to temporary storage. *)
Lemma pipeline_tmp (w : world) (file : document) (st st1 : state)
  (r : outcome unit) :
  tmp_path st = None ->
  pipeline w file st = (r, st1) ->
  exists evs,
    calls st1 = calls st ++ evs
    /\ ((tmp_path st1 = None
         /\ forall q d, ~ In (Ev (TmpWrite q d) true) evs)
        \/ exists p,
             tmp_path st1 = Some p
             /\ files st1 = p :: files st
             /\ forall q d, In (Ev (TmpWrite q d) true) evs -> q = p).
Proof.
  intros Hnone E. unfold pipeline in E.
  rewrite bind_perform in E.
  destruct (get_file w (file_id file)) as [tg|e].
  2:{ injection E as <- <-.
      exists [Ev (GetFile (file_id file)) false]. split; [reflexivity|].
      left. split; [exact Hnone|]. intros q d H. in_cases H. }
  rewrite bind_perform in E.
  destruct (download_as_bytearray w tg) as [data|e].
  2:{ injection E as <- <-.
      exists [Ev (GetFile (file_id file)) true; Ev (Download tg) false].
      split; [unfold log; cbn [calls]; now rewrite <- app_assoc|].
      left. split; [exact Hnone|]. intros q d H. in_cases H. }
  unfold bind at 1 in E. rewrite write_tmp_eq in E.
  unfold log in E. cbn [calls files tmp_path] in E.
  destruct (named_temporary_file w) as [p|e].
  2:{ injection E as <- <-.
      exists [Ev (GetFile (file_id file)) true; Ev (Download tg) true;
              Ev TmpCreate false].
      split; [cbn [calls]; now rewrite <- !app_assoc|].
      left. split; [exact Hnone|]. intros q d H. in_cases H. }
  destruct (tmp_write w p data) as [[]|e].
  2:{ exists [Ev (GetFile (file_id file)) true; Ev (Download tg) true;
              Ev TmpCreate true; Ev (TmpWrite p data) false;
              Ev (TmpClose p) (is_ok (tmp_close w p))].
      destruct (tmp_close w p) as [[]|e']; injection E as <- <-;
        (split; [cbn [calls]; now rewrite <- !app_assoc|]);
        left; (split; [exact Hnone|]); intros q d H; in_cases H. }
  assert (W : forall evs q d,
             forallb harmless evs = true ->
             In (Ev (TmpWrite q d) true)
                ([Ev (GetFile (file_id file)) true; Ev (Download tg) true;
                  Ev TmpCreate true; Ev (TmpWrite p data) true;
                  Ev (TmpClose p) (is_ok (tmp_close w p))] ++ evs) ->
             q = p).
  { intros evs q d F H. in_cases H.
    - now injection H.
    - now apply harmless_no_write in H. }
  destruct (tmp_close w p) as [[]|e'].
  - match type of E with
    | ?m ?s = _ =>
      destruct (@quiet_after_tmp w file p s) as (evs & E' & F)
    end.
    pose proof (f_equal snd E) as E2. cbn [snd] in E2.
    cbn [calls files tmp_path] in E'.
    match type of E' with
    | _ = ?s => assert (E3 : st1 = s) by (rewrite <- E2; exact E')
    end.
    clear E2 E E'. subst st1.
    exists ([Ev (GetFile (file_id file)) true; Ev (Download tg) true;
             Ev TmpCreate true; Ev (TmpWrite p data) true;
             Ev (TmpClose p) true] ++ evs).
    cbn [calls files tmp_path]. split.
    + now rewrite <- !app_assoc.
    + right. exists p. repeat split. intros q d. now apply W.
  - injection E as <- <-.
    exists ([Ev (GetFile (file_id file)) true; Ev (Download tg) true;
             Ev TmpCreate true; Ev (TmpWrite p data) true;
             Ev (TmpClose p) false] ++ []).
    cbn [calls files tmp_path]. split.
    + now rewrite <- !app_assoc.
    + right. exists p. repeat split. intros q d. now apply W.
Qed.

(** C5: once the bytes of the document are written to the temporary file,
    the request ends with the removal of that file, on every path: the
    removal is the last call of the handler and temporary storage is left as
    it was found. *)
Theorem temporary_file_released (w : world) (file : document)
  (fs : list path) (p : path) (data : bytes) :
  In (Ev (TmpWrite p data) true) (calls (snd (run w file fs))) ->
  (exists pre, calls (snd (run w file fs)) = pre ++ [Ev (Unlink p) true])
  /\ files (snd (run w file fs)) = fs.
Proof.
  destruct (run w file fs) as [rr stf] eqn:R. cbn [snd]. intros H.
  unfold run, handle_document in R.
  destruct (is_pdf (mime_type file)); cbn [negb] in R.
  2:{ unfold reply, perform in R. injection R as <- <-.
      cbn [log calls fresh app] in H. in_cases H. }
  unfold reply in R. rewrite bind_perform in R.
  destruct (reply_text w msg_receiving false) as [[]|e].
  2:{ injection R as <- <-. cbn [log calls fresh app] in H. in_cases H. }
  unfold try_finally, try_except in R.
  destruct (pipeline w file (log (Reply msg_receiving false) true (fresh fs)))
    as [r st1] eqn:P.
  apply pipeline_tmp in P; [|reflexivity].
  destruct P as (evs & Hc & Hcases).
  cbn [log calls files fresh app] in Hc, Hcases.
  assert (T : forall (r' : outcome unit) (st2 : state),
             (exists evs', calls st2 = calls st1 ++ evs'
                           /\ forallb harmless evs' = true) ->
             files st2 = files st1 -> tmp_path st2 = tmp_path st1 ->
             match cleanup st2 with
             | (Ok _, st3) => (r', st3)
             | (Raise e, st3) => (Raise e, st3)
             end = (rr, stf) ->
             (exists pre, calls stf = pre ++ [Ev (Unlink p) true])
             /\ files stf = fs).
  { intros r' st2 (evs' & Hc2 & Hq2) Hf2 Ht2 R2.
    unfold cleanup, unlink, log in R2.
    destruct Hcases as [[Ht Hn] | (p0 & Ht & Hf & Hq)].
    - rewrite Ht2, Ht in R2. injection R2 as <- <-.
      rewrite Hc2, Hc in H. in_cases H.
      + now apply Hn in H.
      + now apply harmless_no_write in H.
    - rewrite Ht2, Ht, Hf2, Hf, remove_file_head in R2.
      injection R2 as <- <-. cbn [calls files] in *.
      rewrite Hc2, Hc in H. in_cases H.
      + apply Hq in H. subst p0. split; [now eexists|reflexivity].
      + now apply harmless_no_write in H. }
  destruct r as [[]|e].
  - apply (T (Ok tt) st1); auto.
    exists []. now rewrite app_nil_r.
  - unfold perform in R.
    apply (T (reply_text w (msg_error e) false)
             (log (Reply (msg_error e) false)
                  (is_ok (reply_text w (msg_error e) false)) st1)); auto.
    eexists. split; reflexivity.
Qed.

Lemma temporary_file_released_witness :
  In (Ev (TmpWrite Demo.tmp [37; 80; 68; 70]%N) true)
     (calls (snd (run (Demo.make Demo.apology None (Ok tt)) Demo.pdf [])))
  /\ files (snd (run (Demo.make Demo.apology None (Ok tt)) Demo.pdf [])) = [].
Proof.
  assert (H : In (Ev (TmpWrite Demo.tmp [37; 80; 68; 70]%N) true)
                 (calls (snd (run (Demo.make Demo.apology None (Ok tt))
                                  Demo.pdf [])))).
  { vm_compute. do 4 right. left. reflexivity. }
  split; [exact H|].
  exact (proj2 (@temporary_file_released
                  (Demo.make Demo.apology None (Ok tt)) Demo.pdf []
                  Demo.tmp [37; 80; 68; 70]%N H)).
Defined.

(** ** The JSON reader

    What the reader accepts begins and ends, white space apart, with a
    character that is neither white space nor a backtick. *)

Unset Implicit Arguments.

Ltac decide_comparisons :=
  repeat match goal with
  | |- context [(?a <=? ?b)%N] =>
    first [ replace (a <=? b)%N with true by (symmetry; apply N.leb_le; lia)
          | replace (a <=? b)%N with false by (symmetry; apply N.leb_gt; lia) ]
  | |- context [(?a =? ?b)%N] =>
    first [ replace (a =? b)%N with true by (symmetry; apply N.eqb_eq; lia)
          | replace (a =? b)%N with false by (symmetry; apply N.eqb_neq; lia) ]
  end.

Lemma is_digit_solid (c : N) : JsonRef.is_digit c = true -> solid c = true.
Proof.
  unfold JsonRef.is_digit. intros H.
  apply andb_true_iff in H as [H1 H2].
  apply N.leb_le in H1, H2.
  unfold solid, isspace. decide_comparisons. reflexivity.
Qed.

Lemma span_digits_app (s ds r : str) :
  JsonRef.span_digits s = (ds, r) ->
  s = ds ++ r /\ forallb JsonRef.is_digit ds = true.
Proof.
  revert ds r. induction s as [|c s IH]; simpl; intros ds r H.
  - injection H as <- <-. now split.
  - destruct (JsonRef.is_digit c) eqn:D.
    + destruct (JsonRef.span_digits s) as [ds' r'].
      injection H as <- <-. destruct (IH _ _ eq_refl) as [-> F].
      simpl. now rewrite D, F.
    + injection H as <- <-. now split.
Qed.

Lemma hex4_suffix (s r : str) (n : N) :
  JsonRef.hex4 s = Some (n, r) -> exists pre, s = pre ++ r.
Proof.
  unfold JsonRef.hex4.
  destruct s as [|a [|b [|c [|d t]]]]; try discriminate.
  destruct (JsonRef.hex_digit a), (JsonRef.hex_digit b),
    (JsonRef.hex_digit c), (JsonRef.hex_digit d); try discriminate.
  intros H. injection H as _ <-. now exists [a; b; c; d].
Qed.

Lemma unicode_escape_suffix (s r : str) (n : N) :
  JsonRef.unicode_escape s = Some (n, r) -> exists pre, s = pre ++ r.
Proof.
  unfold JsonRef.unicode_escape.
  destruct (JsonRef.hex4 s) as [[hi r1]|] eqn:H1; [|discriminate].
  apply hex4_suffix in H1 as [pre1 ->].
  destruct ((55296 <=? hi)%N && (hi <=? 56319)%N).
  2:{ intros H. injection H as _ <-. now exists pre1. }
  destruct r1 as [|x [|y r2]];
    try (intros H; injection H as _ <-; now exists pre1).
  destruct ((x =? 92)%N && (y =? 117)%N).
  2:{ intros H. injection H as _ <-. now exists pre1. }
  destruct (JsonRef.hex4 r2) as [[lo r3]|] eqn:H2.
  2:{ intros H. injection H as _ <-. now exists pre1. }
  apply hex4_suffix in H2 as [pre2 ->].
  destruct ((56320 <=? lo)%N && (lo <=? 57343)%N); intros H; injection H as _ <-.
  - exists (pre1 ++ x :: y :: pre2). now rewrite <- app_assoc.
  - now exists pre1.
Qed.

Lemma string_body_closes (fuel : nat) (s acc t r : str) :
  JsonRef.string_body fuel s acc = Some (t, r) ->
  exists pre, s = pre ++ 34%N :: r.
Proof.
  revert s acc. induction fuel as [|f IH]; intros s acc; simpl; [discriminate|].
  destruct s as [|c s']; [discriminate|].
  destruct (N.eqb_spec c 34) as [->|_].
  { intros H. injection H as _ <-. now exists []. }
  destruct (c =? 92)%N.
  - destruct s' as [|e s'']; [discriminate|].
    destruct (e =? 117)%N.
    + destruct (JsonRef.unicode_escape s'') as [[cp r1]|] eqn:U; [|discriminate].
      apply unicode_escape_suffix in U as [pre1 ->].
      intros H. apply IH in H as [pre ->].
      exists (c :: e :: pre1 ++ pre). simpl. now rewrite <- app_assoc.
    + destruct (JsonRef.simple_escape e); [|discriminate].
      intros H. apply IH in H as [pre ->]. now exists (c :: e :: pre).
  - destruct (c <? 32)%N; [discriminate|].
    intros H. apply IH in H as [pre ->]. now exists (c :: pre).
Qed.

Lemma last_digit (ds : str) :
  forallb JsonRef.is_digit ds = true -> ds <> [] ->
  exists pre c, ds = pre ++ [c] /\ JsonRef.is_digit c = true.
Proof.
  intros F N0. destruct (exists_last N0) as (pre & c & ->).
  rewrite forallb_app in F. apply andb_true_iff in F as [_ F].
  simpl in F. rewrite andb_true_r in F. now exists pre, c.
Qed.

Lemma digit_tail_digits (pre ds : str) :
  forallb JsonRef.is_digit ds = true -> ds <> [] -> digit_tail (pre ++ ds).
Proof.
  intros F N0. right. destruct (last_digit ds F N0) as (p & c & -> & D).
  exists (pre ++ p), c. now rewrite app_assoc.
Qed.

Lemma number_shape (s r : str) (v : json) :
  JsonRef.number s = Some (v, r) ->
  (exists pre c, s = pre ++ c :: r /\ JsonRef.is_digit c = true)
  /\ (exists c t, s = c :: t /\ (c = 45%N \/ JsonRef.is_digit c = true)).
Proof.
  unfold JsonRef.number.
  destruct (JsonRef.take_sign s) as [neg s1] eqn:TS.
  assert (Hs : s = (if neg then [45%N] else []) ++ s1).
  { unfold JsonRef.take_sign in TS. destruct s as [|c t].
    - now injection TS as <- <-.
    - destruct (N.eqb_spec c 45) as [->|_]; now injection TS as <- <-. }
  match goal with
  | |- context [let (int_ds, s2) := ?e in _] =>
    destruct e as [int_ds s2] eqn:EI
  end.
  assert (Hi : s1 = int_ds ++ s2 /\ forallb JsonRef.is_digit int_ds = true).
  { destruct s1 as [|c t].
    - now injection EI as <- <-.
    - destruct (N.eqb_spec c 48) as [->|_].
      + now injection EI as <- <-.
      + now apply span_digits_app. }
  destruct Hi as [Hs1 Fi].
  destruct int_ds as [|d0 ds0]; [discriminate|].
  match goal with
  | |- context [let (frac, s3) := ?e in _] =>
    destruct e as [frac s3] eqn:EF
  end.
  assert (Hf : s2 = frac ++ s3 /\ digit_tail frac).
  { destruct s2 as [|c t].
    - injection EF as <- <-. split; [reflexivity|now left].
    - destruct (c =? 46)%N.
      + destruct (JsonRef.span_digits t) as [ds rest] eqn:SD.
        apply span_digits_app in SD as [-> F].
        destruct ds as [|d1 ds1]; injection EF as <- <-.
        * split; [reflexivity|now left].
        * split; [reflexivity|].
          now apply (digit_tail_digits [c] (d1 :: ds1)).
      + injection EF as <- <-. split; [reflexivity|now left]. }
  destruct Hf as [Hs2 Tf].
  match goal with
  | |- context [let (expo, s4) := ?e in _] =>
    destruct e as [expo s4] eqn:EE
  end.
  assert (He : s3 = expo ++ s4 /\ digit_tail expo).
  { destruct s3 as [|c t].
    - injection EE as <- <-. split; [reflexivity|now left].
    - destruct ((c =? 101)%N || (c =? 69)%N).
      + match type of EE with
        | (let (sg, r') := ?e in _) = _ => destruct e as [sg r'] eqn:SG
        end.
        assert (Ht : t = sg ++ r').
        { destruct t as [|d t'].
          - now injection SG as <- <-.
          - destruct ((d =? 43)%N || (d =? 45)%N);
              now injection SG as <- <-. }
        destruct (JsonRef.span_digits r') as [ds rest] eqn:SD.
        apply span_digits_app in SD as [-> F].
        destruct ds as [|d1 ds1]; injection EE as <- <-.
        * split; [reflexivity|now left].
        * split; [subst t; simpl; now rewrite <- app_assoc|].
          apply (digit_tail_digits (c :: sg) (d1 :: ds1)); [exact F|easy].
      + injection EE as <- <-. split; [reflexivity|now left]. }
  destruct He as [Hs3 Te].
  intros H.
  assert (Hr : r = s4) by (destruct frac, expo; now injection H as _ <-).
  subst r. clear H. split.
  - destruct (last_digit (d0 :: ds0) Fi) as (ip & ic & Ei & Di); [easy|].
    subst s s1 s2 s3. rewrite Ei.
    destruct Te as [->|(ep & ec & -> & De)].
    + destruct Tf as [->|(fp & fc & -> & Df)].
      * exists ((if neg then [45%N] else []) ++ ip), ic.
        split; [|exact Di]. simpl. rewrite <- !app_assoc. reflexivity.
      * exists ((if neg then [45%N] else []) ++ (ip ++ [ic]) ++ fp), fc.
        split; [|exact Df]. simpl. rewrite <- !app_assoc. reflexivity.
    + exists ((if neg then [45%N] else []) ++ (ip ++ [ic]) ++ frac ++ ep), ec.
      split; [|exact De]. simpl. rewrite <- !app_assoc. reflexivity.
  - subst s s1. simpl in Fi. apply andb_true_iff in Fi as [D0 _].
    destruct neg.
    + exists 45%N. eexists. split; [reflexivity|now left].
    + exists d0. eexists. split; [reflexivity|now right].
Qed.

Lemma suffix_refl (s : str) : suffix s s.
Proof. now exists []. Qed.

Lemma suffix_trans (a b c : str) : suffix a b -> suffix b c -> suffix a c.
Proof.
  intros [p ->] [q ->]. exists (q ++ p). now rewrite app_assoc.
Qed.

Lemma suffix_cons (c : N) (s : str) : suffix s (c :: s).
Proof. now exists [c]. Qed.

Lemma suffix_skip_ws (s : str) : suffix (JsonRef.skip_ws s) s.
Proof.
  induction s as [|c s IH]; simpl.
  - apply suffix_refl.
  - destruct (JsonRef.is_ws c); [|apply suffix_refl].
    eapply suffix_trans; [exact IH|apply suffix_cons].
Qed.

Lemma suffix_skip_ws_eq (s t : str) : JsonRef.skip_ws s = t -> suffix t s.
Proof. intros <-. apply suffix_skip_ws. Qed.

Lemma suffix_skipn (n : nat) (s : str) : suffix (skipn n s) s.
Proof.
  exists (firstn n s). symmetry. apply firstn_skipn.
Qed.

Ltac suff :=
  repeat first [ eassumption
               | apply suffix_refl
               | apply suffix_cons
               | (eapply suffix_trans; [eassumption|])
               | (eapply suffix_trans; [apply suffix_cons|]) ].

Lemma startswith_split (s p : str) :
  startswith s p = true -> s = p ++ skipn (List.length p) s.
Proof.
  revert s. induction p as [|c p IH]; intros s H; [reflexivity|].
  destruct s as [|d s]; [discriminate|]. simpl in H.
  apply andb_true_iff in H as [E H]. apply N.eqb_eq in E. subst d.
  simpl. now rewrite <- IH.
Qed.

Lemma keyword_shape (s r : str) (v : json) :
  JsonRef.keyword s = Some (v, r) ->
  (exists c, suffix (c :: r) s /\ solid c = true)
  /\ (exists c t, s = c :: t /\ solid c = true).
Proof.
  unfold JsonRef.keyword.
  assert (K : forall (w pre : str) (c0 c : N) (mid : str),
             w = c0 :: mid ++ [c] -> solid c = true -> solid c0 = true ->
             startswith s w = true ->
             (exists c, suffix (c :: skipn (List.length w) s) s /\ solid c = true)
             /\ (exists c t, s = c :: t /\ solid c = true)).
  { intros w pre c0 c mid -> Sc Sc0 H. apply startswith_split in H.
    split.
    - exists c. split; [|exact Sc].
      exists (c0 :: mid). rewrite H at 1. simpl. now rewrite <- app_assoc.
    - exists c0. eexists. split; [|exact Sc0]. rewrite H at 1. reflexivity. }
  destruct (startswith s (lit "true")) eqn:E1.
  { intros H. injection H as _ <-.
    apply (K (lit "true") [] 116%N 101%N [114; 117]%N); auto. }
  destruct (startswith s (lit "false")) eqn:E2.
  { intros H. injection H as _ <-.
    apply (K (lit "false") [] 102%N 101%N [97; 108; 115]%N); auto. }
  destruct (startswith s (lit "null")) eqn:E3.
  { intros H. injection H as _ <-.
    apply (K (lit "null") [] 110%N 108%N [117; 108]%N); auto. }
  destruct (startswith s (lit "NaN")) eqn:E4.
  { intros H. injection H as _ <-.
    apply (K (lit "NaN") [] 78%N 78%N [97]%N); auto. }
  destruct (startswith s (lit "Infinity")) eqn:E5.
  { intros H. injection H as _ <-.
    apply (K (lit "Infinity") [] 73%N 121%N [110; 102; 105; 110; 105; 116]%N);
      auto. }
  destruct (startswith s (lit "-Infinity")) eqn:E6; [|discriminate].
  intros H. injection H as _ <-.
  apply (K (lit "-Infinity") [] 45%N 121%N
           [73; 110; 102; 105; 110; 105; 116]%N); auto.
Qed.

Lemma json_shape (fuel : nat) :
  (forall s v r,
      JsonRef.value fuel s = Some (v, r) ->
      (exists c, suffix (c :: r) s /\ solid c = true)
      /\ (exists c t, s = c :: t /\ solid c = true))
  /\ (forall s acc v r,
         JsonRef.members fuel s acc = Some (v, r) -> suffix (125%N :: r) s)
  /\ (forall s acc v r,
         JsonRef.elements fuel s acc = Some (v, r) -> suffix (93%N :: r) s).
Proof.
  induction fuel as [|f (IHv & IHm & IHe)].
  { repeat split; intros; discriminate. }
  split; [|split].
  - intros s v r. cbn [JsonRef.value].
    destruct s as [|c r0]; [discriminate|].
    destruct (N.eqb_spec c 123) as [->|_].
    { destruct (JsonRef.skip_ws r0) as [|d r'] eqn:W; [discriminate|].
      apply suffix_skip_ws_eq in W. intros H.
      split; [|now exists 123%N, r0].
      exists 125%N. split; [|reflexivity].
      destruct (N.eqb_spec d 125) as [->|_].
      - injection H as _ <-. suff.
      - apply IHm in H. suff. }
    destruct (N.eqb_spec c 91) as [->|_].
    { destruct (JsonRef.skip_ws r0) as [|d r'] eqn:W; [discriminate|].
      apply suffix_skip_ws_eq in W. intros H.
      split; [|now exists 91%N, r0].
      exists 93%N. split; [|reflexivity].
      destruct (N.eqb_spec d 93) as [->|_].
      - injection H as _ <-. suff.
      - apply IHe in H. suff. }
    destruct (N.eqb_spec c 34) as [->|_].
    { destruct (JsonRef.string_body (List.length r0) r0 [])
        as [[t r']|] eqn:B; [|discriminate].
      apply string_body_closes in B as [pre ->].
      intros H. injection H as _ <-.
      split; [|now eexists 34%N, _].
      exists 34%N. split; [|reflexivity]. now exists (34%N :: pre). }
    destruct (JsonRef.keyword (c :: r0)) as [[v' r']|] eqn:K.
    { intros H. injection H as _ <-. now apply keyword_shape in K. }
    intros H. apply number_shape in H as [(pre & d & E & D) (c0 & t & E0 & D0)].
    split.
    + exists d. split; [now exists pre|now apply is_digit_solid].
    + exists c0, t. split; [exact E0|].
      destruct D0 as [->|D0]; [reflexivity|now apply is_digit_solid].
  - intros s acc v r. cbn [JsonRef.members].
    destruct s as [|c r0]; [discriminate|].
    destruct (c =? 34)%N; [|discriminate].
    destruct (JsonRef.string_body (List.length r0) r0 [])
      as [[k r1]|] eqn:B; [|discriminate].
    apply string_body_closes in B.
    destruct (JsonRef.skip_ws r1) as [|d r2] eqn:W1; [discriminate|].
    apply suffix_skip_ws_eq in W1.
    destruct (d =? 58)%N; [|discriminate].
    destruct (JsonRef.value f (JsonRef.skip_ws r2)) as [[v' r3]|] eqn:V;
      [|discriminate].
    apply IHv in V as [(c' & V & _) _].
    pose proof (suffix_skip_ws r2) as W2.
    destruct (JsonRef.skip_ws r3) as [|e r4] eqn:W3; [discriminate|].
    apply suffix_skip_ws_eq in W3.
    assert (S3 : suffix r3 (c :: r0)).
    { assert (suffix r1 r0) by (destruct B as [p ->]; exists (p ++ [34%N]);
                                 now rewrite <- app_assoc).
      assert (suffix r2 r1) by suff.
      assert (suffix r3 (JsonRef.skip_ws r2)) by suff.
      suff. }
    destruct (N.eqb_spec e 125) as [->|_].
    { intros H. injection H as _ <-. suff. }
    destruct (e =? 44)%N; [|discriminate].
    intros H. apply IHm in H.
    pose proof (suffix_skip_ws r4) as W4.
    assert (suffix r4 r3) by suff.
    suff.
  - intros s acc v r. cbn [JsonRef.elements].
    destruct (JsonRef.value f s) as [[v' r1]|] eqn:V; [|discriminate].
    apply IHv in V as [(c' & V & _) _].
    destruct (JsonRef.skip_ws r1) as [|e r2] eqn:W; [discriminate|].
    apply suffix_skip_ws_eq in W.
    assert (S1 : suffix r1 s) by suff.
    destruct (N.eqb_spec e 93) as [->|_].
    { intros H. injection H as _ <-. suff. }
    destruct (e =? 44)%N; [|discriminate].
    intros H. apply IHe in H.
    pose proof (suffix_skip_ws r2) as W2.
    assert (suffix r2 r1) by suff.
    suff.
Qed.

Lemma is_ws_isspace (c : N) : JsonRef.is_ws c = true -> isspace c = true.
Proof.
  unfold JsonRef.is_ws. intros H.
  repeat (apply orb_true_iff in H as [H|H]); apply N.eqb_eq in H; subst c;
    reflexivity.
Qed.

Lemma lstrip_skip_ws (s : str) : lstrip (JsonRef.skip_ws s) = lstrip s.
Proof.
  induction s as [|c s IH]; [reflexivity|]. simpl.
  destruct (JsonRef.is_ws c) eqn:W.
  - now rewrite (is_ws_isspace c W).
  - reflexivity.
Qed.

Lemma skip_ws_nil (r : str) :
  JsonRef.skip_ws r = [] -> forallb isspace r = true.
Proof.
  induction r as [|c r IH]; [reflexivity|]. simpl.
  destruct (JsonRef.is_ws c) eqn:W; [|discriminate].
  intros H. now rewrite (is_ws_isspace c W), IH.
Qed.

Lemma lstrip_spaces (ws t : str) :
  forallb isspace ws = true -> lstrip (ws ++ t) = lstrip t.
Proof.
  induction ws as [|c ws IH]; [reflexivity|]. simpl.
  intros H. apply andb_true_iff in H as [-> H]. now apply IH.
Qed.

Lemma rstrip_spaces (t ws : str) :
  forallb isspace ws = true -> rstrip (t ++ ws) = rstrip t.
Proof.
  intros H. unfold rstrip. rewrite rev_app_distr, lstrip_spaces; [reflexivity|].
  rewrite forallb_forall in *. intros x Hx. apply H. now apply in_rev.
Qed.

Lemma solid_not_space (c : N) : solid c = true -> isspace c = false.
Proof.
  unfold solid. intros H. apply andb_true_iff in H as [H _].
  now apply negb_true_iff in H.
Qed.

Lemma solid_not_tick (c : N) : solid c = true -> (96 =? c)%N = false.
Proof.
  unfold solid. intros H. apply andb_true_iff in H as [_ H].
  apply negb_true_iff in H. now rewrite N.eqb_sym.
Qed.

Lemma startswith_tick (x : N) (s p : str) :
  (96 =? x)%N = false -> startswith (x :: s) (96%N :: p) = false.
Proof. intros H. cbn [startswith]. now rewrite H. Qed.

(** A text that begins and ends with a solid character, between white
    space, carries no fence marker when trimmed. *)
Lemma solid_fence_free (s body r : str) (c0 c : N) (t : str) :
  lstrip s = body ++ c :: r -> body ++ c :: r = c0 :: t ->
  solid c0 = true -> solid c = true -> forallb isspace r = true ->
  fence_free s.
Proof.
  intros L E S0 Sc R.
  assert (St : strip s = body ++ [c]).
  { unfold strip. rewrite L.
    replace (body ++ c :: r) with ((body ++ [c]) ++ r)
      by (now rewrite <- app_assoc).
    rewrite rstrip_spaces by exact R.
    apply rstrip_snoc. now apply solid_not_space. }
  split; rewrite St.
  - change (lit "```json") with (96%N :: lit "``json").
    destruct body as [|b body'].
    + apply startswith_tick. now apply solid_not_tick.
    + injection E as -> _. apply startswith_tick. now apply solid_not_tick.
  - unfold endswith. rewrite rev_app_distr.
    change (rev (lit "```")) with (96%N :: lit "``").
    apply startswith_tick. now apply solid_not_tick.
Qed.

(** Every text the reader accepts carries no fence marker of its own. *)
Lemma loads_fence_free (s : str) (v : json) :
  JsonRef.loads s = Ok v -> fence_free s.
Proof.
  unfold JsonRef.loads.
  destruct (JsonRef.value (2 * List.length s + 2) (JsonRef.skip_ws s))
    as [[v' r]|] eqn:V; [|discriminate].
  destruct (JsonRef.skip_ws r) eqn:W; [|discriminate]. intros _.
  apply json_shape in V as [(c & [body E] & Sc) (c0 & t & E0 & S0)].
  apply (@solid_fence_free s body r c0 c t); auto.
  - rewrite <- lstrip_skip_ws, E0, <- E, E0.
    apply lstrip_head. now apply solid_not_space.
  - now rewrite <- E.
  - now apply skip_ws_nil.
Qed.

(** * Further properties *)

(** ** Fences in any layout *)

Lemma lstrip_all_spaces (ws : str) :
  forallb isspace ws = true -> lstrip ws = [].
Proof.
  intros H. rewrite <- (app_nil_r ws). now rewrite lstrip_spaces.
Qed.

Lemma strip_spaces_around (ws1 x ws2 : str) :
  forallb isspace ws1 = true -> forallb isspace ws2 = true ->
  strip (ws1 ++ x ++ ws2) = strip x.
Proof.
  intros H1 H2. unfold strip. rewrite lstrip_spaces by exact H1.
  destruct (lstrip x) as [|c t] eqn:L.
  - (* x is all white space *)
    assert (Hx : forallb isspace x = true).
    { clear -L. induction x as [|d x IH]; [reflexivity|]. simpl in *.
      destruct (isspace d); [now apply IH|discriminate]. }
    rewrite lstrip_all_spaces; [reflexivity|].
    now rewrite forallb_app, Hx, H2.
  - (* x = spaces ++ c :: t *)
    assert (Hx : exists ws, x = ws ++ c :: t /\ forallb isspace ws = true
                            /\ isspace c = false).
    { clear -L. revert L. induction x as [|d x IH]; [discriminate|]. simpl.
      destruct (isspace d) eqn:D.
      - intros L. destruct (IH L) as (ws & -> & F & C).
        exists (d :: ws). simpl. now rewrite D, F.
      - intros L. injection L as -> ->. exists []. now rewrite D. }
    destruct Hx as (ws & -> & F & C).
    rewrite <- app_assoc. rewrite lstrip_spaces by exact F.
    cbn [app]. rewrite lstrip_head by exact C.
    change (c :: t ++ ws2) with ((c :: t) ++ ws2).
    now rewrite rstrip_spaces.
Qed.

Lemma compact_cases (body : str) :
  compact body = true ->
  body = []
  \/ exists a t pre b,
       body = a :: t /\ body = pre ++ [b]
       /\ solid a = true /\ solid b = true.
Proof.
  unfold compact. destruct body as [|a t]; [now left|]. intros H.
  apply andb_true_iff in H as [Ha Hb]. right.
  exists a, t, (removelast (a :: t)), (last (a :: t) 0%N).
  repeat split; auto. now apply app_removelast_last.
Qed.

Lemma strip_tight (x : str) (a b : N) (t pre : str) :
  x = a :: t -> x = pre ++ [b] ->
  isspace a = false -> isspace b = false -> strip x = x.
Proof.
  intros E1 E2 Ha Hb. unfold strip.
  rewrite E1 at 1. rewrite lstrip_head by exact Ha. rewrite <- E1.
  rewrite E2. now apply rstrip_snoc.
Qed.

Lemma endswith_solid (pre : str) (b : N) :
  solid b = true -> endswith (pre ++ [b]) (lit "```") = false.
Proof.
  intros H. unfold endswith. rewrite rev_app_distr.
  change (rev (lit "```")) with (96%N :: lit "``").
  apply startswith_tick. now apply solid_not_tick.
Qed.

Lemma startswith_solid (a : N) (t : str) :
  solid a = true -> startswith (a :: t) (lit "```json") = false.
Proof.
  intros H. change (lit "```json") with (96%N :: lit "``json").
  apply startswith_tick. now apply solid_not_tick.
Qed.

(** White space around a response does not matter. *)
Lemma strip_fences_spaces (ws1 x ws2 : str) :
  forallb isspace ws1 = true -> forallb isspace ws2 = true ->
  strip_fences (ws1 ++ x ++ ws2) = strip_fences x.
Proof.
  intros H1 H2. unfold strip_fences. cbv zeta.
  now rewrite strip_spaces_around.
Qed.

Lemma strip_fences_leading (ws x : str) :
  forallb isspace ws = true -> strip_fences (ws ++ x) = strip_fences x.
Proof.
  intros H. rewrite <- (app_nil_r x) at 1.
  now apply strip_fences_spaces.
Qed.

Lemma strip_fences_trailing (x ws : str) :
  forallb isspace ws = true -> strip_fences (x ++ ws) = strip_fences x.
Proof.
  intros H. change (x ++ ws) with ([] ++ x ++ ws).
  now apply strip_fences_spaces.
Qed.

Lemma strip_compact (body : str) : compact body = true -> strip body = body.
Proof.
  intros H. destruct (compact_cases body H)
    as [->|(a & t & pre & b & E1 & E2 & Sa & Sb)]; [reflexivity|].
  apply (strip_tight body a b t pre E1 E2);
    now apply solid_not_space.
Qed.

Lemma strip_compact_padded (ws1 body ws2 : str) :
  forallb isspace ws1 = true -> forallb isspace ws2 = true ->
  compact body = true -> strip (ws1 ++ body ++ ws2) = body.
Proof.
  intros H1 H2 C. rewrite strip_spaces_around by assumption.
  now apply strip_compact.
Qed.

(** The response with the opening marker only. *)
Lemma strip_fences_opening (ws body : str) :
  forallb isspace ws = true -> compact body = true ->
  strip_fences (lit "```json" ++ ws ++ body) = body.
Proof.
  intros H C.
  destruct (compact_cases body C)
    as [->|(a & t & pre & b & E1 & E2 & Sa & Sb)].
  - rewrite app_nil_r. rewrite strip_fences_trailing by exact H.
    vm_compute. reflexivity.
  - unfold strip_fences. cbv zeta.
    assert (St : strip (lit "```json" ++ ws ++ body)
                 = lit "```json" ++ ws ++ body).
    { apply (strip_tight _ 96%N b (lit "``json" ++ ws ++ body)
                         (lit "```json" ++ ws ++ pre)).
      - reflexivity.
      - rewrite E2 at 1. now rewrite <- !app_assoc.
      - reflexivity.
      - now apply solid_not_space. }
    rewrite St, startswith_app.
    pose proof (slice_from_app (lit "```json") (ws ++ body)) as E.
    change (List.length (lit "```json")) with 7 in E. rewrite E.
    assert (En : endswith (ws ++ body) (lit "```") = false).
    { rewrite E2, app_assoc. now apply endswith_solid. }
    rewrite En. rewrite <- (app_nil_r body) at 1.
    now apply strip_compact_padded.
Qed.

(** The response with the closing marker only. *)
Lemma strip_fences_closing (body ws : str) :
  forallb isspace ws = true -> compact body = true ->
  strip_fences (body ++ ws ++ lit "```") = body.
Proof.
  intros H C.
  destruct (compact_cases body C)
    as [->|(a & t & pre & b & E1 & E2 & Sa & Sb)].
  - cbn [app]. rewrite strip_fences_leading by exact H.
    vm_compute. reflexivity.
  - unfold strip_fences. cbv zeta.
    assert (St : strip (body ++ ws ++ lit "```") = body ++ ws ++ lit "```").
    { apply (strip_tight _ a 96%N (t ++ ws ++ lit "```")
                         (body ++ ws ++ lit "``")).
      - rewrite E1 at 1. reflexivity.
      - rewrite <- !app_assoc. reflexivity.
      - now apply solid_not_space.
      - reflexivity. }
    rewrite St.
    assert (Sn : startswith (body ++ ws ++ lit "```") (lit "```json") = false).
    { rewrite E1. cbn [app]. now apply startswith_solid. }
    rewrite Sn.
    rewrite (app_assoc body ws (lit "```")), endswith_app.
    pose proof (slice_to_neg_app (body ++ ws) (lit "```")) as E.
    change (List.length (lit "```")) with 3 in E. rewrite E.
    change (body ++ ws) with ([] ++ body ++ ws).
    now apply strip_compact_padded.
Qed.

(** The response without markers. *)
Lemma strip_fences_bare (body : str) :
  compact body = true -> strip_fences body = body.
Proof.
  intros C.
  destruct (compact_cases body C)
    as [->|(a & t & pre & b & E1 & E2 & Sa & Sb)]; [reflexivity|].
  unfold strip_fences. cbv zeta. rewrite (strip_compact body C).
  assert (Sn : startswith body (lit "```json") = false)
    by (rewrite E1; now apply startswith_solid).
  assert (En : endswith body (lit "```") = false)
    by (rewrite E2; now apply endswith_solid).
  rewrite Sn, En. now apply strip_compact.
Qed.

(** The response between its markers, each present or not. *)
Lemma strip_fences_marked (ws2 ws3 body : str) (opening closing : bool) :
  forallb isspace ws2 = true -> forallb isspace ws3 = true ->
  compact body = true ->
  strip_fences (opening_marker opening ++ ws2 ++ body ++ ws3
                ++ closing_marker closing)
  = body.
Proof.
  intros H2 H3 C.
  destruct opening, closing; cbn [opening_marker closing_marker app].
  - change (lit "```json" ++ ws2 ++ body ++ ws3 ++ lit "```")
      with (lit "```json" ++ (ws2 ++ body ++ ws3 ++ lit "```")).
    replace (ws2 ++ body ++ ws3 ++ lit "```")
      with ((ws2 ++ body ++ ws3) ++ lit "```")
      by (now rewrite <- !app_assoc).
    change (strip_fences (fenced (ws2 ++ body ++ ws3)) = body).
    rewrite (strip_fences_fenced (ws2 ++ body ++ ws3)).
    now apply strip_compact_padded.
  - rewrite app_nil_r.
    replace (lit "```json" ++ ws2 ++ body ++ ws3)
      with ((lit "```json" ++ ws2 ++ body) ++ ws3)
      by (now rewrite <- !app_assoc).
    rewrite strip_fences_trailing by exact H3.
    now apply strip_fences_opening.
  - rewrite strip_fences_leading by exact H2.
    now apply strip_fences_closing.
  - rewrite app_nil_r.
    rewrite <- (app_nil_l (ws2 ++ body ++ ws3)).
    cbn [app]. rewrite strip_fences_spaces by assumption.
    now apply strip_fences_bare.
Qed.

(** The layout of a response: white space, the opening marker or not, white
    space, the payload, white space, the closing marker or not, white
    space. *)
Lemma layout_assoc (ws1 ws2 ws3 ws4 body : str) (opening closing : bool) :
  ws1 ++ opening_marker opening ++ ws2 ++ body ++ ws3
  ++ closing_marker closing ++ ws4
  = ws1 ++ (opening_marker opening ++ ws2 ++ body ++ ws3
            ++ closing_marker closing) ++ ws4.
Proof. now rewrite <- !app_assoc. Qed.

(** X1: whatever white space surrounds the markers and the payload, and
    whether each marker is present or not, the text handed to [json.loads] is
    the payload alone. *)
Theorem strip_fences_normal_form (ws1 ws2 ws3 ws4 body : str)
  (opening closing : bool) :
  forallb isspace ws1 = true -> forallb isspace ws2 = true ->
  forallb isspace ws3 = true -> forallb isspace ws4 = true ->
  compact body = true ->
  strip_fences (ws1 ++ opening_marker opening ++ ws2 ++ body ++ ws3
                ++ closing_marker closing ++ ws4)
  = body.
Proof.
  intros H1 H2 H3 H4 C.
  rewrite layout_assoc.
  rewrite strip_fences_spaces by assumption.
  now apply strip_fences_marked.
Qed.

Lemma strip_fences_normal_form_witness :
  compact Demo.payload = true
  /\ strip_fences ([32%N] ++ lit "```json" ++ nl ++ Demo.payload ++ nl
                   ++ [] ++ [10%N])
     = Demo.payload.
Proof.
  split; [vm_compute; reflexivity|].
  exact (strip_fences_normal_form [32%N] nl nl [10%N] Demo.payload true false
           eq_refl eq_refl eq_refl eq_refl
           ltac:(vm_compute; reflexivity)).
Defined.

(** ** An opening marker without the tag *)

Lemma startswith_json_ticks (q : str) :
  startswith q (lit "json") = false ->
  startswith (q ++ lit "```") (lit "json") = false.
Proof.
  change (lit "json") with [106; 115; 111; 110]%N.
  change (lit "```") with [96; 96; 96]%N.
  destruct q as [|a [|b [|c [|d q']]]]; cbn [startswith app];
    intros H;
    repeat match goal with
           | |- context [N.eqb ?x ?y] => destruct (N.eqb x y) eqn:?
           end;
    try reflexivity; try discriminate;
    cbn in *; try discriminate.
  - destruct q'; exact H.
Qed.

(** X2: a fence opened by three backticks that are not followed by [json]
    loses its closing marker only: the text handed to [json.loads] still
    begins with the three backticks. *)
Theorem untagged_fence_kept (q : str) :
  startswith q (lit "json") = false ->
  strip_fences (lit "```" ++ q ++ lit "```") = lit "```" ++ rstrip q.
Proof.
  intros H. unfold strip_fences. cbv zeta.
  assert (St : strip (lit "```" ++ q ++ lit "```")
               = lit "```" ++ q ++ lit "```").
  { replace (lit "```" ++ q ++ lit "```")
      with (96%N :: (lit "``" ++ q ++ lit "``") ++ [96%N])
      by (cbn [app]; rewrite <- !app_assoc; reflexivity).
    now apply strip_delimited. }
  rewrite St.
  assert (Sn : startswith (lit "```" ++ q ++ lit "```") (lit "```json")
               = false).
  { change (lit "```json") with (96%N :: 96%N :: 96%N :: lit "json").
    change (lit "```" ++ q ++ lit "```")
      with (96%N :: 96%N :: 96%N :: (q ++ lit "```")).
    cbn [startswith]. rewrite !N.eqb_refl. cbn [andb].
    now apply startswith_json_ticks. }
  rewrite Sn.
  rewrite (app_assoc (lit "```") q (lit "```")), endswith_app.
  pose proof (slice_to_neg_app (lit "```" ++ q) (lit "```")) as E.
  change (List.length (lit "```")) with 3 in E. rewrite E.
  unfold strip.
  change (lit "```" ++ q) with (96%N :: 96%N :: 96%N :: q).
  rewrite lstrip_head by reflexivity.
  now rewrite !rstrip_head by reflexivity.
Qed.

Lemma untagged_fence_kept_witness :
  startswith (nl ++ Demo.payload ++ nl) (lit "json") = false
  /\ strip_fences (lit "```" ++ (nl ++ Demo.payload ++ nl) ++ lit "```")
     = lit "```" ++ nl ++ Demo.payload.
Proof.
  split; [reflexivity|].
  rewrite (untagged_fence_kept (nl ++ Demo.payload ++ nl) eq_refl).
  vm_compute. reflexivity.
Defined.

(** The reader rejects every text that begins with a backtick. *)
Lemma loads_rejects_backtick (s : str) :
  JsonRef.loads (96%N :: s) = Raise JsonRef.decode_error.
Proof.
  unfold JsonRef.loads.
  destruct (JsonRef.value (2 * List.length (96%N :: s) + 2)
                          (JsonRef.skip_ws (96%N :: s)))
    as [[v r]|] eqn:V; [|reflexivity].
  apply json_shape in V as [_ (c & t & E & S)].
  change (JsonRef.skip_ws (96%N :: s)) with (96%N :: s) in E.
  injection E as <- _. discriminate.
Qed.

(** ** The prompt *)

Lemma join_app (sep : str) (xs ys : list str) :
  xs <> [] -> ys <> [] ->
  join sep (xs ++ ys) = join sep xs ++ sep ++ join sep ys.
Proof.
  intros Hx Hy. induction xs as [|x xs IH]; [easy|].
  destruct xs as [|x' xs'].
  - destruct ys; [easy|]. reflexivity.
  - change ((x :: x' :: xs') ++ ys) with (x :: (x' :: xs') ++ ys).
    change (join sep (x :: (x' :: xs') ++ ys))
      with (x ++ sep ++ join sep ((x' :: xs') ++ ys)).
    rewrite IH by easy.
    change (join sep (x :: x' :: xs'))
      with (x ++ sep ++ join sep (x' :: xs')).
    now rewrite <- !app_assoc.
Qed.

(** X3: the prompt is the extracted text, as it is and once, between a fixed
    instruction and the fixed ending; texts that differ give prompts that
    differ. *)
Theorem prompt_embeds_text :
  (exists head, forall text,
      prompt text = head ++ text ++ nl ++ nl ++ lit "Ответ:")
  /\ (forall t1 t2, prompt t1 = prompt t2 -> t1 = t2).
Proof.
  assert (D : exists head, forall text,
               prompt text = head ++ text ++ nl ++ nl ++ lit "Ответ:").
  { eexists. intros text. unfold prompt.
    match goal with
    | |- join nl ?l = _ =>
      change l with (firstn 22 l ++ skipn 22 l)
    end.
    cbn [firstn skipn].
    rewrite join_app by easy.
    change (join nl [text; []; lit "Ответ:"])
      with (text ++ nl ++ nl ++ lit "Ответ:").
    rewrite app_assoc. reflexivity. }
  split; [exact D|].
  destruct D as (head & D). intros t1 t2. rewrite !D. intros H.
  apply app_inv_head in H. now apply app_inv_tail in H.
Qed.

(** ** No validation of the parsed value *)

(** A text the reader accepts is, once trimmed, a compact payload: the
    condition of the layout lemmas costs an accepted text nothing. *)
Lemma loads_compact (s : str) (v : json) :
  JsonRef.loads s = Ok v -> compact (strip s) = true.
Proof.
  unfold JsonRef.loads.
  destruct (JsonRef.value (2 * List.length s + 2) (JsonRef.skip_ws s))
    as [[v' r]|] eqn:V; [|discriminate].
  destruct (JsonRef.skip_ws r) eqn:W; [|discriminate]. intros _.
  apply json_shape in V as [(c & [body E] & Sc) (c0 & t & E0 & S0)].
  assert (L : lstrip s = body ++ c :: r).
  { rewrite <- lstrip_skip_ws, E0, <- E, E0.
    apply lstrip_head. now apply solid_not_space. }
  assert (St : strip s = body ++ [c]).
  { unfold strip. rewrite L.
    replace (body ++ c :: r) with ((body ++ [c]) ++ r)
      by (now rewrite <- app_assoc).
    rewrite rstrip_spaces by (now apply skip_ws_nil).
    apply rstrip_snoc. now apply solid_not_space. }
  rewrite St. rewrite E0 in E.
  destruct body as [|b body']; cbn [app] in E.
  - unfold compact. cbn [app last]. now rewrite Sc.
  - injection E as -> _. unfold compact.
    change ((b :: body') ++ [c]) with (b :: body' ++ [c]).
    cbv beta iota.
    change (b :: body' ++ [c]) with ((b :: body') ++ [c]).
    rewrite last_last. now rewrite S0, Sc.
Qed.

(** C10, as the code has it: [analyze_document] checks nothing of what
    [json.loads] returns.  For every response the outcome is the outcome of
    [json.loads] on the cleaned text, so it raises exactly when [json.loads]
    raises, with that exception, and whatever value [v] the reader gives
    for the cleaned text, of whatever shape, is returned.  When the response
    is a payload in any layout of white space and fence markers, the cleaned
    text is the payload, so the value of the payload is returned. *)
Theorem analyze_document_unvalidated
  (w : world) (text content : str) (st : state) :
  llm_invoke w (prompt text) = Ok content ->
  analyze_document w text st
  = (json_loads w (strip_fences content),
     log (LlmInvoke (prompt text)) true st)
  /\ (forall e,
         fst (analyze_document w text st) = Raise e
         <-> json_loads w (strip_fences content) = Raise e)
  /\ (forall v,
         json_loads w (strip_fences content)
         = JsonRef.loads (strip_fences content) ->
         JsonRef.loads (strip_fences content) = Ok v ->
         fst (analyze_document w text st) = Ok v)
  /\ (forall (ws1 ws2 ws3 ws4 body : str) (opening closing : bool),
         forallb isspace ws1 = true -> forallb isspace ws2 = true ->
         forallb isspace ws3 = true -> forallb isspace ws4 = true ->
         compact body = true ->
         content = ws1 ++ opening_marker opening ++ ws2 ++ body ++ ws3
                   ++ closing_marker closing ++ ws4 ->
         strip_fences content = body
         /\ fst (analyze_document w text st) = json_loads w body
         /\ forall v,
              json_loads w body = JsonRef.loads body ->
              JsonRef.loads body = Ok v ->
              fst (analyze_document w text st) = Ok v).
Proof.
  intros H. rewrite (analyze_document_answer w text st H). cbn [fst].
  split; [reflexivity|]. split; [tauto|].
  split; [intros v Hr Hv; now rewrite Hr|].
  intros ws1 ws2 ws3 ws4 body opening closing H1 H2 H3 H4 C ->.
  assert (E : strip_fences
                (ws1 ++ opening_marker opening ++ ws2 ++ body ++ ws3
                 ++ closing_marker closing ++ ws4)
              = body).
  { rewrite layout_assoc. rewrite strip_fences_spaces by assumption.
    now apply strip_fences_marked. }
  rewrite E. split; [reflexivity|]. split; [reflexivity|].
  intros v Hr Hv. now rewrite Hr.
Qed.

Lemma analyze_document_unvalidated_witness :
  fst (analyze_document
         (Demo.make ([32%N] ++ opening_marker true ++ nl ++ lit "[1, 2]"
                     ++ nl ++ closing_marker true ++ nl)
                    None (Ok tt))
         (lit "Hello") (fresh []))
  = Ok (JList [JInt 1; JInt 2])
  /\ fst (analyze_document
            (Demo.make ([] ++ opening_marker false ++ [] ++ quoted (lit "hi")
                        ++ [] ++ closing_marker false ++ [])
                       None (Ok tt))
            (lit "Hello") (fresh []))
     = Ok (JStr (lit "hi"))
  /\ fst (analyze_document
            (Demo.make ([] ++ opening_marker false ++ [] ++ lit "-42"
                        ++ nl ++ closing_marker true ++ [])
                       None (Ok tt))
            (lit "Hello") (fresh []))
     = Ok (JInt (-42))
  /\ fst (analyze_document
            (Demo.make ([] ++ opening_marker true ++ nl
                        ++ (lit "{" ++ quoted (lit "x") ++ lit ": null}")
                        ++ [] ++ closing_marker false ++ [])
                       None (Ok tt))
            (lit "Hello") (fresh []))
     = Ok (JDict [(lit "x", JNull)]).
Proof.
  pose proof (fun c : str =>
                proj2 (proj2 (proj2 (analyze_document_unvalidated
                                       (Demo.make c None (Ok tt))
                                       (lit "Hello") c (fresh []) eq_refl))))
    as T.
  assert (C1 : compact (lit "[1, 2]") = true) by (vm_compute; reflexivity).
  assert (V1 : JsonRef.loads (lit "[1, 2]") = Ok (JList [JInt 1; JInt 2]))
    by (vm_compute; reflexivity).
  assert (C2 : compact (quoted (lit "hi")) = true)
    by (vm_compute; reflexivity).
  assert (V2 : JsonRef.loads (quoted (lit "hi")) = Ok (JStr (lit "hi")))
    by (vm_compute; reflexivity).
  assert (C3 : compact (lit "-42") = true) by (vm_compute; reflexivity).
  assert (V3 : JsonRef.loads (lit "-42") = Ok (JInt (-42)))
    by (vm_compute; reflexivity).
  assert (C4 : compact (lit "{" ++ quoted (lit "x") ++ lit ": null}") = true)
    by (vm_compute; reflexivity).
  assert (V4 : JsonRef.loads (lit "{" ++ quoted (lit "x") ++ lit ": null}")
               = Ok (JDict [(lit "x", JNull)]))
    by (vm_compute; reflexivity).
  split; [|split; [|split]].
  - exact (proj2 (proj2 (T _ [32%N] nl nl nl (lit "[1, 2]") true true
                           eq_refl eq_refl eq_refl eq_refl C1 eq_refl))
             _ eq_refl V1).
  - exact (proj2 (proj2 (T _ [] [] [] [] (quoted (lit "hi")) false false
                           eq_refl eq_refl eq_refl eq_refl C2 eq_refl))
             _ eq_refl V2).
  - exact (proj2 (proj2 (T _ [] [] nl [] (lit "-42") false true
                           eq_refl eq_refl eq_refl eq_refl C3 eq_refl))
             _ eq_refl V3).
  - exact (proj2 (proj2 (T _ [] nl [] []
                           (lit "{" ++ quoted (lit "x") ++ lit ": null}")
                           true false
                           eq_refl eq_refl eq_refl eq_refl C4 eq_refl))
             _ eq_refl V4).
Defined.

(** C10, as the specification states it, fails: [NaN] is no JSON text, the
    cleaned response is that text, and [analyze_document] does not raise, it
    returns the float that [json.loads] makes of it. *)
Lemma non_json_constant_returned :
  strip_fences (lit "NaN") = lit "NaN"
  /\ valid_json (strip_fences (lit "NaN")) = false
  /\ fst (analyze_document (Demo.make (lit "NaN") None (Ok tt))
                           (lit "Hello") (fresh []))
     = Ok (JFloat (lit "nan")).
Proof.
  repeat split; vm_compute; reflexivity.
Qed.

(** ** Records that can be shown and stored *)

Lemma lookup_set_same (k : str) (v : json) (d : list (str * json)) :
  Dict.lookup k (Dict.set k v d) = Some v.
Proof.
  induction d as [|[k0 v0] d IH]; simpl.
  - now rewrite eqb_refl.
  - destruct (PyStr.eqb k k0) eqn:E; simpl.
    + now rewrite eqb_refl.
    + now rewrite E.
Qed.

Lemma lookup_set_other (k k' : str) (v : json) (d : list (str * json)) :
  PyStr.eqb k' k = false ->
  Dict.lookup k' (Dict.set k v d) = Dict.lookup k' d.
Proof.
  intros N. induction d as [|[k0 v0] d IH]; simpl.
  - now rewrite N.
  - destruct (PyStr.eqb k k0) eqn:E; simpl.
    + apply eqb_eq in E. subst k0. now rewrite N.
    + destruct (PyStr.eqb k' k0); [reflexivity|exact IH].
Qed.

Lemma field_set_other (k k' : str) (v x : json) (d : list (str * json)) :
  PyStr.eqb k' k = false ->
  field (Dict.set k v d) k' x = field d k' x.
Proof.
  intros N. unfold field. now rewrite lookup_set_other.
Qed.

Lemma py_get_not_dict (v : json) (k : str) (x : json) :
  is_dict v = false -> py_get v k x = Raise (no_attribute_get v).
Proof. destruct v; try discriminate; reflexivity. Qed.

(** X4: the row stored for a request: the first cell is the file name of the
    attachment ([None] when it has none), also when the record of the model
    carries a file name of its own; the other cells are those of the
    record. *)
Theorem stored_row (file : document) (d f : list (str * json)) :
  facts_of d = Some f ->
  sheet_row (JDict (stored file d))
  = Ok [ json_of_name (file_name file);
         field d (lit "тип") (JStr []);
         field d (lit "имя") (JStr []);
         field f (lit "должность") (JStr []);
         field f (lit "город") (JStr []);
         field f (lit "дата") (JStr []);
         field f (lit "организация") (JStr []);
         field d (lit "резюме") (JStr []) ].
Proof.
  intros Hf. unfold sheet_row, stored.
  rewrite !py_get_dict. cbn [rbind].
  rewrite (field_set_other (lit "файл") (lit "факты"))
    by (vm_compute; reflexivity).
  rewrite (field_set_other (lit "файл") (lit "тип"))
    by (vm_compute; reflexivity).
  rewrite (field_set_other (lit "файл") (lit "имя"))
    by (vm_compute; reflexivity).
  rewrite (field_set_other (lit "файл") (lit "резюме"))
    by (vm_compute; reflexivity).
  rewrite (field_facts d Hf). rewrite !py_get_dict. cbn [rbind].
  unfold field at 1. now rewrite lookup_set_same.
Qed.

Lemma stored_row_witness :
  facts_of [(lit "файл", JStr (lit "other.pdf")); (lit "тип", JStr (lit "x"))]
  = Some []
  /\ sheet_row
       (JDict (stored Demo.pdf
                 [(lit "файл", JStr (lit "other.pdf"));
                  (lit "тип", JStr (lit "x"))]))
     = Ok [ JStr (lit "f.pdf"); JStr (lit "x"); JStr []; JStr []; JStr [];
            JStr []; JStr []; JStr [] ].
Proof.
  split; [reflexivity|].
  rewrite (stored_row Demo.pdf
             [(lit "файл", JStr (lit "other.pdf")); (lit "тип", JStr (lit "x"))]
             [] eq_refl).
  vm_compute. reflexivity.
Defined.

Lemma usable_facts (v : json) :
  usable v = true <-> exists d f, v = JDict d /\ facts_of d = Some f.
Proof.
  split.
  - destruct v as [| | | | | |d]; try discriminate. cbn [usable].
    unfold facts_of. intros H. exists d.
    destruct (Dict.lookup (lit "факты") d) as [[| | | | | |f]|];
      try discriminate; eauto.
  - intros (d & f & -> & H). cbn [usable]. unfold facts_of in H.
    destruct (Dict.lookup (lit "факты") d) as [[| | | | | |f']|];
      try discriminate; reflexivity.
Qed.

Lemma format_response_usable (w : world) (v : json) :
  usable v = true -> is_ok (format_response w v) = true.
Proof.
  intros H. apply usable_facts in H as (d & f & -> & Hf).
  unfold format_response. rewrite !py_get_dict. cbn [rbind].
  rewrite (field_facts d Hf). rewrite !py_get_dict. reflexivity.
Qed.

Lemma sheet_row_usable (v : json) :
  usable v = true -> is_ok (sheet_row v) = true.
Proof.
  intros H. apply usable_facts in H as (d & f & -> & Hf).
  unfold sheet_row. rewrite !py_get_dict. cbn [rbind].
  rewrite (field_facts d Hf). rewrite !py_get_dict. reflexivity.
Qed.

Lemma culprit_not_dict (v : json) :
  usable v = false -> is_dict (culprit v) = false.
Proof.
  destruct v as [| | | | | |d]; try reflexivity. cbn [usable culprit].
  destruct (Dict.lookup (lit "факты") d) as [[| | | | | |f]|];
    try discriminate; reflexivity.
Qed.

Lemma unusable_dict (d : list (str * json)) :
  usable (JDict d) = false ->
  is_dict (culprit (JDict d)) = false
  /\ field d (lit "факты") (JDict []) = culprit (JDict d).
Proof.
  cbn [usable culprit]. unfold field.
  destruct (Dict.lookup (lit "факты") d) as [[| | | | | |f]|];
    try discriminate; now split.
Qed.

Lemma format_response_unusable (w : world) (v : json) :
  usable v = false ->
  format_response w v = Raise (no_attribute_get (culprit v)).
Proof.
  intros H. destruct v as [| | | | | |d]; try reflexivity.
  destruct (unusable_dict d H) as [Hd Hf].
  unfold format_response. rewrite !py_get_dict. cbn [rbind].
  rewrite Hf. rewrite !py_get_not_dict by exact Hd. reflexivity.
Qed.

Lemma sheet_row_unusable (v : json) :
  usable v = false -> sheet_row v = Raise (no_attribute_get (culprit v)).
Proof.
  intros H. destruct v as [| | | | | |d]; try reflexivity.
  destruct (unusable_dict d H) as [Hd Hf].
  unfold sheet_row. rewrite !py_get_dict. cbn [rbind].
  rewrite Hf. rewrite !py_get_not_dict by exact Hd. reflexivity.
Qed.

(** X5: the message and the row fail on the same records, with the same
    exception: the [AttributeError] of [.get] on the value that is not a dict,
    the record itself or its facts.  Every other record gives a message and a
    row of eight cells. *)
Theorem message_and_row_agree (w : world) (v : json) :
  (usable v = true ->
   exists response row,
     format_response w v = Ok response /\ sheet_row v = Ok row
     /\ List.length row = 8)
  /\ (usable v = false ->
      format_response w v = Raise (no_attribute_get (culprit v))
      /\ sheet_row v = Raise (no_attribute_get (culprit v))
      /\ is_dict (culprit v) = false).
Proof.
  split; intros H.
  - pose proof (format_response_usable w v H) as F.
    pose proof (sheet_row_usable v H) as R.
    destruct (format_response w v) as [response|]; [|discriminate].
    destruct (sheet_row v) as [row|] eqn:E; [|discriminate].
    exists response, row. repeat split.
    apply usable_facts in H as (d & f & -> & Hf).
    unfold sheet_row in E. rewrite !py_get_dict in E. cbn [rbind] in E.
    rewrite (field_facts d Hf) in E. rewrite !py_get_dict in E.
    cbn [rbind] in E. injection E as <-. reflexivity.
  - repeat split.
    + now apply format_response_unusable.
    + now apply sheet_row_unusable.
    + now apply culprit_not_dict.
Qed.

Lemma message_and_row_agree_witness :
  usable (JDict Demo.record) = true
  /\ usable (JList [JInt 1; JInt 2]) = false
  /\ format_response (Demo.make [] None (Ok tt)) (JList [JInt 1; JInt 2])
     = Raise (Exn AttributeError
                  (lit "'list' object has no attribute 'get'"))
  /\ is_ok (sheet_row (JDict Demo.record)) = true.
Proof.
  split; [reflexivity|]. split; [reflexivity|]. split.
  - rewrite (proj1 (proj2 (message_and_row_agree
                             (Demo.make [] None (Ok tt))
                             (JList [JInt 1; JInt 2])) eq_refl)).
    vm_compute. reflexivity.
  - destruct (proj1 (message_and_row_agree (Demo.make [] None (Ok tt))
                       (JDict Demo.record)) eq_refl)
      as (response & row & _ & -> & _).
    reflexivity.
Defined.

(** ** Replies that fail *)

(** X6: a response that is valid JSON but no usable record (not an object, or
    with facts that are not an object) is reported to the user as the
    [AttributeError] of [.get]; no analysis reply is sent, nothing is stored,
    and the temporary file is removed. *)
Theorem unusable_record_reported (w : world) (file : document) (tg : tg_file)
  (data : bytes) (p : path) (pages : list str) (content : str) (v : json)
  (fs : list path) :
  Extracted w file tg data p pages ->
  llm_invoke w (prompt (join nl pages)) = Ok content ->
  json_loads w (strip_fences content) = Ok v ->
  usable v = false ->
  run w file fs
  = (reply_text w (msg_error (no_attribute_get (culprit v))) false,
     State (extraction_calls file tg data p
            ++ [ Ev (LlmInvoke (prompt (join nl pages))) true;
                 Ev (Reply (msg_error (no_attribute_get (culprit v))) false)
                    (is_ok (reply_text w
                              (msg_error (no_attribute_get (culprit v)))
                              false));
                 Ev (Unlink p) true ])
           fs (Some p)).
Proof.
  intros [Hpdf Hrecv Hfile Hbytes Hcreate Hwrite Hclose Hload Hnote]
         Hllm Hjson Hbad.
  pose proof (format_response_unusable w v Hbad) as Hfmt.
  exec. use Hpdf. use Hrecv. use Hfile. use Hbytes. use Hcreate.
  use Hwrite. use Hclose. use Hload. use Hnote. use Hllm. use Hjson.
  use Hfmt.
  destruct (reply_text w (msg_error (no_attribute_get (culprit v))) false)
    as [[]|e'];
    cbn [calls files tmp_path app is_ok];
    rewrite remove_file_head; cbn [calls files tmp_path app];
    reflexivity.
Qed.

Lemma unusable_record_reported_witness :
  usable (JList [JInt 1; JInt 2]) = false
  /\ run (Demo.make (lit "[1, 2]") None (Ok tt)) Demo.pdf []
     = (Ok tt,
        State (extraction_calls Demo.pdf 1%N [37; 80; 68; 70]%N Demo.tmp
               ++ [ Ev (LlmInvoke (prompt (join nl Demo.pages))) true;
                    Ev (Reply (lit "❌ Ошибка: "
                               ++ lit "'list' object has no attribute 'get'")
                              false) true;
                    Ev (Unlink Demo.tmp) true ])
              [] (Some Demo.tmp)).
Proof.
  split; [reflexivity|].
  assert (J : json_loads (Demo.make (lit "[1, 2]") None (Ok tt))
                         (strip_fences (lit "[1, 2]"))
              = Ok (JList [JInt 1; JInt 2])) by (vm_compute; reflexivity).
  rewrite (unusable_record_reported
             (Demo.make (lit "[1, 2]") None (Ok tt)) Demo.pdf 1%N
             [37; 80; 68; 70]%N Demo.tmp Demo.pages (lit "[1, 2]")
             (JList [JInt 1; JInt 2]) []
             (demo_extracted (lit "[1, 2]") None (Ok tt)) eq_refl J eq_refl).
  vm_compute. reflexivity.
Defined.

(** X7: when the analysis message cannot be delivered, the error of the chat
    transport is what the user is told, and nothing is stored: no call to the
    spreadsheet service is made. *)
Theorem undelivered_reply_not_stored (w : world) (file : document)
  (tg : tg_file) (data : bytes) (p : path) (pages : list str)
  (content : str) (v : json) (response : str) (e : exn) (fs : list path) :
  Extracted w file tg data p pages ->
  llm_invoke w (prompt (join nl pages)) = Ok content ->
  json_loads w (strip_fences content) = Ok v ->
  format_response w v = Ok response ->
  reply_text w response true = Raise e ->
  run w file fs
  = (reply_text w (msg_error e) false,
     State (extraction_calls file tg data p
            ++ [ Ev (LlmInvoke (prompt (join nl pages))) true;
                 Ev (Reply response true) false;
                 Ev (Reply (msg_error e) false)
                    (is_ok (reply_text w (msg_error e) false));
                 Ev (Unlink p) true ])
           fs (Some p)).
Proof.
  intros [Hpdf Hrecv Hfile Hbytes Hcreate Hwrite Hclose Hload Hnote]
         Hllm Hjson Hfmt Hreply.
  exec. use Hpdf. use Hrecv. use Hfile. use Hbytes. use Hcreate.
  use Hwrite. use Hclose. use Hload. use Hnote. use Hllm. use Hjson.
  use Hfmt. use Hreply.
  destruct (reply_text w (msg_error e) false) as [[]|e'];
    cbn [calls files tmp_path app is_ok];
    rewrite remove_file_head; cbn [calls files tmp_path app];
    reflexivity.
Qed.

Lemma demo_extracted_plain (content : str) :
  Extracted (with_reply (Demo.make content None (Ok tt)) plain_only)
            Demo.pdf 1%N [37; 80; 68; 70]%N Demo.tmp Demo.pages.
Proof. split; vm_compute; reflexivity. Qed.

Lemma undelivered_reply_not_stored_witness :
  reply_text (with_reply (Demo.make Demo.fenced None (Ok tt)) plain_only)
             Demo.response true
  = Raise (Exn (OtherError (lit "BadRequest")) (lit "Can't parse entities"))
  /\ run (with_reply (Demo.make Demo.fenced None (Ok tt)) plain_only)
         Demo.pdf []
     = (Ok tt,
        State (extraction_calls Demo.pdf 1%N [37; 80; 68; 70]%N Demo.tmp
               ++ [ Ev (LlmInvoke (prompt (join nl Demo.pages))) true;
                    Ev (Reply Demo.response true) false;
                    Ev (Reply (lit "❌ Ошибка: " ++ lit "Can't parse entities")
                              false) true;
                    Ev (Unlink Demo.tmp) true ])
              [] (Some Demo.tmp)).
Proof.
  split; [reflexivity|].
  assert (J : json_loads
                (with_reply (Demo.make Demo.fenced None (Ok tt)) plain_only)
                (strip_fences Demo.fenced)
              = Ok (JDict Demo.record)) by (vm_compute; reflexivity).
  assert (F : format_response
                (with_reply (Demo.make Demo.fenced None (Ok tt)) plain_only)
                (JDict Demo.record)
              = Ok Demo.response) by (vm_compute; reflexivity).
  rewrite (undelivered_reply_not_stored
             (with_reply (Demo.make Demo.fenced None (Ok tt)) plain_only)
             Demo.pdf 1%N [37; 80; 68; 70]%N Demo.tmp Demo.pages Demo.fenced
             (JDict Demo.record) Demo.response
             (Exn (OtherError (lit "BadRequest")) (lit "Can't parse entities"))
             [] (demo_extracted_plain Demo.fenced) eq_refl J F eq_refl).
  vm_compute. reflexivity.
Defined.

(** ** The [try] block and its clauses *)

(** [handle_document] for a PDF whose first progress message is delivered:
    the [try] block, the [except] clause, the [finally] clause. *)
Lemma run_pdf (w : world) (file : document) (fs : list path)
  (r : outcome unit) (st1 : state) :
  is_pdf (mime_type file) = true ->
  reply_text w msg_receiving false = Ok tt ->
  pipeline w file (log (Reply msg_receiving false) true (fresh fs))
  = (r, st1) ->
  run w file fs
  = match cleanup (snd (handled w r st1)) with
    | (Ok _, st3) => (fst (handled w r st1), st3)
    | (Raise e, st3) => (Raise e, st3)
    end.
Proof.
  intros Hpdf Hrecv P. unfold run, handle_document.
  rewrite Hpdf. cbn [negb]. unfold reply at 1. rewrite bind_perform, Hrecv.
  unfold try_finally, try_except. rewrite P.
  destruct r as [[]|e]; cbn [handled fst snd]; [reflexivity|].
  unfold reply, perform. reflexivity.
Qed.

Lemma run_not_pdf (w : world) (file : document) (fs : list path) :
  is_pdf (mime_type file) = false ->
  run w file fs
  = (reply_text w msg_rejection false,
     log (Reply msg_rejection false)
         (is_ok (reply_text w msg_rejection false)) (fresh fs)).
Proof.
  intros H. unfold run, handle_document. rewrite H. reflexivity.
Qed.

Lemma run_unannounced (w : world) (file : document) (fs : list path)
  (e : exn) :
  is_pdf (mime_type file) = true ->
  reply_text w msg_receiving false = Raise e ->
  run w file fs
  = (Raise e, log (Reply msg_receiving false) false (fresh fs)).
Proof.
  intros Hpdf Hrecv. unfold run, handle_document.
  rewrite Hpdf. cbn [negb]. unfold reply at 1.
  now rewrite bind_perform, Hrecv.
Qed.

(** What [pipeline] does to temporary storage: it leaves it alone, or adds
    one file; [tmp_path] is then bound to that file, unless the write to it
    raised. *)
Lemma pipeline_files (w : world) (file : document) (st st1 : state)
  (r : outcome unit) :
  tmp_path st = None ->
  pipeline w file st = (r, st1) ->
  exists evs,
    calls st1 = calls st ++ evs
    /\ ((tmp_path st1 = None
         /\ (files st1 = files st
             \/ exists p d, files st1 = p :: files st
                            /\ In (Ev (TmpWrite p d) false) evs))
        \/ exists p, tmp_path st1 = Some p /\ files st1 = p :: files st).
Proof.
  intros Hnone E. unfold pipeline in E.
  rewrite bind_perform in E.
  destruct (get_file w (file_id file)) as [tg|e].
  2:{ injection E as <- <-.
      exists [Ev (GetFile (file_id file)) false]. split; [reflexivity|].
      left. split; [exact Hnone|now left]. }
  rewrite bind_perform in E.
  destruct (download_as_bytearray w tg) as [data|e].
  2:{ injection E as <- <-.
      exists [Ev (GetFile (file_id file)) true; Ev (Download tg) false].
      split; [unfold log; cbn [calls]; now rewrite <- app_assoc|].
      left. split; [exact Hnone|now left]. }
  unfold bind at 1 in E. rewrite write_tmp_eq in E.
  unfold log in E. cbn [calls files tmp_path] in E.
  destruct (named_temporary_file w) as [p|e].
  2:{ injection E as <- <-.
      exists [Ev (GetFile (file_id file)) true; Ev (Download tg) true;
              Ev TmpCreate false].
      split; [cbn [calls]; now rewrite <- !app_assoc|].
      left. split; [exact Hnone|now left]. }
  destruct (tmp_write w p data) as [[]|e].
  2:{ exists [Ev (GetFile (file_id file)) true; Ev (Download tg) true;
              Ev TmpCreate true; Ev (TmpWrite p data) false;
              Ev (TmpClose p) (is_ok (tmp_close w p))].
      destruct (tmp_close w p) as [[]|e']; injection E as <- <-;
        (split; [cbn [calls]; now rewrite <- !app_assoc|]);
        left; (split; [exact Hnone|]); right; exists p, data;
        (split; [reflexivity|]); cbn [In]; auto. }
  destruct (tmp_close w p) as [[]|e'].
  - match type of E with
    | ?m ?s = _ =>
      destruct (@quiet_after_tmp w file p s) as (evs & E' & F)
    end.
    pose proof (f_equal snd E) as E2. cbn [snd] in E2.
    cbn [calls files tmp_path] in E'.
    match type of E' with
    | _ = ?s => assert (E3 : st1 = s) by (rewrite <- E2; exact E')
    end.
    clear E2 E E'. subst st1.
    exists ([Ev (GetFile (file_id file)) true; Ev (Download tg) true;
             Ev TmpCreate true; Ev (TmpWrite p data) true;
             Ev (TmpClose p) true] ++ evs).
    cbn [calls files tmp_path]. split.
    + now rewrite <- !app_assoc.
    + right. exists p. now split.
  - injection E as <- <-.
    exists [Ev (GetFile (file_id file)) true; Ev (Download tg) true;
            Ev TmpCreate true; Ev (TmpWrite p data) true;
            Ev (TmpClose p) false].
    cbn [calls files tmp_path]. split.
    + now rewrite <- !app_assoc.
    + right. exists p. now split.
Qed.

(** X8: an exception leaves the handler from four places only, those outside
    the [try] block and its [except] clause: the rejection, the first
    message, the error message sent by the [except] clause for what the
    [try] block raised, and the unlink of the [finally] clause.  What the
    download, the temporary file, the extraction, the model, the parsing, the
    analysis reply, the spreadsheet and the confirmation raise inside the
    [try] block is caught. *)
Theorem handler_escapes_located (w : world) (file : document)
  (fs : list path) (e : exn) :
  fst (run w file fs) = Raise e ->
  (is_pdf (mime_type file) = false
   /\ reply_text w msg_rejection false = Raise e)
  \/ (is_pdf (mime_type file) = true
      /\ reply_text w msg_receiving false = Raise e)
  \/ (is_pdf (mime_type file) = true
      /\ reply_text w msg_receiving false = Ok tt
      /\ exists e0 st1,
           pipeline w file (log (Reply msg_receiving false) true (fresh fs))
           = (Raise e0, st1)
           /\ reply_text w (msg_error e0) false = Raise e
           /\ In (Ev (Reply (msg_error e0) false) false)
                 (calls (snd (run w file fs))))
  \/ (exists p, In (Ev (Unlink p) false) (calls (snd (run w file fs)))).
Proof.
  destruct (is_pdf (mime_type file)) eqn:Hpdf.
  2:{ rewrite (run_not_pdf w file fs Hpdf). cbn [fst snd]. intros H.
      left. now split. }
  destruct (reply_text w msg_receiving false) as [[]|e0] eqn:Hrecv.
  2:{ rewrite (run_unannounced w file fs e0 Hpdf Hrecv). cbn [fst snd].
      intros H. injection H as ->. right. left. now split. }
  destruct (pipeline w file (log (Reply msg_receiving false) true (fresh fs)))
    as [r st1] eqn:P.
  rewrite (run_pdf w file fs r st1 Hpdf Hrecv P).
  assert (C : (exists st3,
                  cleanup (snd (handled w r st1)) = (Ok tt, st3)
                  /\ forall x, In x (calls (snd (handled w r st1))) ->
                               In x (calls st3))
              \/ exists p e1 st3,
                   cleanup (snd (handled w r st1)) = (Raise e1, st3)
                   /\ In (Ev (Unlink p) false) (calls st3)).
  { unfold cleanup, unlink.
    destruct (tmp_path (snd (handled w r st1))) as [p|].
    - destruct (remove_file p (files (snd (handled w r st1)))).
      + left. eexists. split; [reflexivity|]. intros x Hx. cbn [calls].
        apply in_or_app. now left.
      + right. do 3 eexists. split; [reflexivity|]. unfold log.
        cbn [calls]. apply in_or_app. right. now left.
    - left. eexists. split; [reflexivity|auto]. }
  destruct C as [(st3 & -> & Hin)|(p & e1 & st3 & -> & Hin)]; cbn [fst snd].
  - destruct r as [[]|e0]; cbn [handled fst snd] in *; [discriminate|].
    intros H. right. right. left.
    split; [reflexivity|]. split; [reflexivity|].
    exists e0, st1. split; [reflexivity|]. split; [exact H|].
    apply Hin. unfold log. cbn [calls]. rewrite H. cbn [is_ok].
    apply in_or_app. right. now left.
  - intros _. right. right. right. now exists p.
Qed.

Lemma handler_escapes_located_witness :
  fst (run (with_reply (Demo.make Demo.apology None (Ok tt)) errors_only_fail)
           Demo.pdf [])
  = Raise Demo.timeout
  /\ exists e0,
       reply_text (with_reply (Demo.make Demo.apology None (Ok tt))
                              errors_only_fail)
                  (msg_error e0) false
       = Raise Demo.timeout
       /\ In (Ev (Reply (msg_error e0) false) false)
             (calls (snd (run (with_reply (Demo.make Demo.apology None
                                                     (Ok tt))
                                          errors_only_fail)
                              Demo.pdf []))).
Proof.
  assert (H : fst (run (with_reply (Demo.make Demo.apology None (Ok tt))
                                   errors_only_fail)
                       Demo.pdf [])
              = Raise Demo.timeout) by (vm_compute; reflexivity).
  split; [exact H|].
  destruct (handler_escapes_located _ _ _ _ H)
    as [[F _]|[[_ F]|[(_ & _ & e0 & st1 & _ & R & I)|[p F]]]].
  - vm_compute in F. discriminate F.
  - vm_compute in F. discriminate F.
  - exists e0. now split.
  - exfalso. vm_compute in F.
    repeat (destruct F as [F|F]; [discriminate F|]). exact F.
Defined.

(** X9: temporary storage after a request, whatever the collaborators do: it
    is as before, or holds one more file, the one whose write raised. *)
Theorem temporary_storage_accounted (w : world) (file : document)
  (fs : list path) :
  files (snd (run w file fs)) = fs
  \/ exists p d,
       files (snd (run w file fs)) = p :: fs
       /\ In (Ev (TmpWrite p d) false) (calls (snd (run w file fs))).
Proof.
  destruct (is_pdf (mime_type file)) eqn:Hpdf.
  2:{ rewrite (run_not_pdf w file fs Hpdf). now left. }
  destruct (reply_text w msg_receiving false) as [[]|e0] eqn:Hrecv.
  2:{ rewrite (run_unannounced w file fs e0 Hpdf Hrecv). now left. }
  destruct (pipeline w file (log (Reply msg_receiving false) true (fresh fs)))
    as [r st1] eqn:P.
  rewrite (run_pdf w file fs r st1 Hpdf Hrecv P).
  apply pipeline_files in P; [|reflexivity].
  destruct P as (evs & Hc & Hcases).
  cbn [log fresh calls files] in Hc, Hcases.
  assert (Ht : tmp_path (snd (handled w r st1)) = tmp_path st1)
    by (destruct r as [[]|]; reflexivity).
  assert (Hf : files (snd (handled w r st1)) = files st1)
    by (destruct r as [[]|]; reflexivity).
  assert (Hi : forall x, In x evs -> In x (calls (snd (handled w r st1)))).
  { intros x Hx. destruct r as [[]|e0]; cbn [handled snd log calls];
      rewrite Hc; [|apply in_or_app; left]; apply in_or_app; now right. }
  unfold cleanup, unlink.
  destruct Hcases as [[Hn [Hfs|(p & d & Hfs & Hw)]]|(p & Hp & Hfs)].
  - rewrite Ht, Hn. cbn [snd]. left. now rewrite Hf.
  - rewrite Ht, Hn. cbn [snd]. right. exists p, d.
    rewrite Hf. split; [exact Hfs|now apply Hi].
  - rewrite Ht, Hp, Hf, Hfs, remove_file_head. now left.
Qed.

(** ** The order of the calls *)

Lemma subseq_refl {A : Type} (xs : list A) : subseq xs xs.
Proof. induction xs; [apply subseq_nil|now apply subseq_take]. Qed.

Lemma subseq_nil_l {A : Type} (ys : list A) : subseq [] ys.
Proof. induction ys; [apply subseq_nil|now apply subseq_skip]. Qed.

Lemma subseq_app {A : Type} (xs1 ys1 xs2 ys2 : list A) :
  subseq xs1 ys1 -> subseq xs2 ys2 -> subseq (xs1 ++ xs2) (ys1 ++ ys2).
Proof.
  intros H1 H2.
  induction H1; simpl;
    [exact H2|now apply subseq_skip|now apply subseq_take].
Qed.

Lemma subseq_app_l {A : Type} (xs ys zs : list A) :
  subseq xs ys -> subseq xs (ys ++ zs).
Proof.
  intros H. rewrite <- (app_nil_r xs).
  apply subseq_app; [exact H|apply subseq_nil_l].
Qed.

Lemma subseq_trans {A : Type} (xs ys zs : list A) :
  subseq xs ys -> subseq ys zs -> subseq xs zs.
Proof.
  intros H1 H2. revert xs H1.
  induction H2; intros xs0 H1.
  - exact H1.
  - apply subseq_skip. now apply IHsubseq.
  - inversion H1; subst.
    + apply subseq_skip. now apply IHsubseq.
    + apply subseq_take. now apply IHsubseq.
Qed.

Lemma subseq_count (xs ys : list kind) (k : kind) :
  subseq xs ys ->
  count_occ kind_eq_dec xs k <= count_occ kind_eq_dec ys k.
Proof.
  induction 1; simpl.
  - lia.
  - destruct (kind_eq_dec y k); lia.
  - destruct (kind_eq_dec x k); lia.
Qed.

Lemma kinds_app (a b : list event) : kinds (a ++ b) = kinds a ++ kinds b.
Proof. apply map_app. Qed.

Lemma shaped_weaken {A : Type} (s s' : list kind) (m : M A) :
  shaped s m -> subseq s s' -> shaped s' m.
Proof.
  intros H S st. destruct (H st) as (evs & E & F).
  exists evs. split; [exact E|]. now apply (subseq_trans _ s).
Qed.

Lemma shaped_ret {A : Type} (a : A) : shaped [] (ret a).
Proof. intros st. exists []. rewrite app_nil_r. split; [reflexivity|constructor]. Qed.

Lemma shaped_lift {A : Type} (r : outcome A) : shaped [] (lift r).
Proof. intros st. exists []. rewrite app_nil_r. split; [reflexivity|constructor]. Qed.

Lemma shaped_perform {A : Type} (c : call) (r : outcome A) (k : kind) :
  kind_of c = k -> shaped [k] (perform c r).
Proof.
  intros <- st. exists [Ev c (is_ok r)]. split; [reflexivity|].
  apply subseq_refl.
Qed.

Lemma shaped_bind {A B : Type} (s1 s2 : list kind) (m : M A) (k : A -> M B) :
  shaped s1 m -> (forall a, shaped s2 (k a)) -> shaped (s1 ++ s2) (bind m k).
Proof.
  intros Hm Hk st. unfold bind.
  destruct (Hm st) as (evs1 & E1 & F1).
  destruct (m st) as [[a|e] st1]; cbn [snd] in E1.
  - destruct (Hk a st1) as (evs2 & E2 & F2).
    exists (evs1 ++ evs2). rewrite E2, E1, app_assoc, kinds_app.
    split; [reflexivity|now apply subseq_app].
  - exists evs1. split; [exact E1|now apply subseq_app_l].
Qed.

Lemma shaped_try_except {A : Type} (s1 s2 : list kind) (m : M A)
  (h : exn -> M A) :
  shaped s1 m -> (forall e, shaped s2 (h e)) ->
  shaped (s1 ++ s2) (try_except m h).
Proof.
  intros Hm Hh st. unfold try_except.
  destruct (Hm st) as (evs1 & E1 & F1).
  destruct (m st) as [[a|e] st1]; cbn [snd] in E1.
  - exists evs1. split; [exact E1|now apply subseq_app_l].
  - destruct (Hh e st1) as (evs2 & E2 & F2).
    exists (evs1 ++ evs2). rewrite E2, E1, app_assoc, kinds_app.
    split; [reflexivity|now apply subseq_app].
Qed.

Lemma shaped_try_finally {A : Type} (s1 s2 : list kind) (m : M A)
  (fin : M unit) :
  shaped s1 m -> shaped s2 fin -> shaped (s1 ++ s2) (try_finally m fin).
Proof.
  intros Hm Hf st. unfold try_finally.
  destruct (Hm st) as (evs1 & E1 & F1).
  destruct (m st) as [r st1]; cbn [snd] in E1.
  destruct (Hf st1) as (evs2 & E2 & F2).
  exists (evs1 ++ evs2).
  destruct (fin st1) as [[[]|e] st2]; cbn [snd] in *;
    rewrite E2, E1, app_assoc, kinds_app;
    (split; [reflexivity|now apply subseq_app]).
Qed.

Lemma shaped_create_tmp (w : world) : shaped [KTmpCreate] (create_tmp w).
Proof.
  intros st. unfold create_tmp.
  destruct (named_temporary_file w) as [p|e].
  - exists [Ev TmpCreate true]. split; [reflexivity|apply subseq_refl].
  - exists [Ev TmpCreate false]. split; [reflexivity|apply subseq_refl].
Qed.

Lemma shaped_bind_tmp_path (p : path) : shaped [] (bind_tmp_path p).
Proof.
  intros st. exists []. rewrite app_nil_r. split; [reflexivity|constructor].
Qed.

Lemma shaped_cleanup : shaped [KUnlink] cleanup.
Proof.
  intros st. unfold cleanup, unlink.
  destruct (tmp_path st) as [p|].
  - destruct (remove_file p (files st)).
    + exists [Ev (Unlink p) true]. split; [reflexivity|apply subseq_refl].
    + exists [Ev (Unlink p) false]. split; [reflexivity|apply subseq_refl].
  - exists []. rewrite app_nil_r. split; [reflexivity|apply subseq_nil_l].
Qed.

Ltac shape :=
  repeat first
    [ apply shaped_ret
    | apply shaped_lift
    | (eapply shaped_perform; cbn [kind_of]; reflexivity)
    | apply shaped_create_tmp
    | apply shaped_bind_tmp_path
    | apply shaped_cleanup
    | (eapply shaped_bind; [|intros ?])
    | (eapply shaped_try_except; [|intros ?])
    | eapply shaped_try_finally ].

(** X10: whatever the collaborators do, the calls of a request are made in one
    fixed order, none of them twice: the replies apart, each kind of call
    occurs at most once, in particular the model and the append. *)
Theorem calls_in_order (w : world) (file : document) (fs : list path) :
  subseq (kinds (calls (snd (run w file fs)))) request_order
  /\ forall k,
       count_occ kind_eq_dec (kinds (calls (snd (run w file fs)))) k
       <= count_occ kind_eq_dec request_order k.
Proof.
  assert (S : shaped request_order (handle_document w file)).
  { unfold handle_document.
    destruct (is_pdf (mime_type file)); cbn [negb].
    - eapply shaped_weaken.
      + unfold pipeline, write_tmp, analyze_document, write_to_sheet, reply.
        cbv zeta. shape.
      + cbn [app kind_of]. apply subseq_refl.
    - eapply shaped_weaken.
      + unfold reply. shape.
      + cbn [kind_of]. apply subseq_take. apply subseq_nil_l. }
  assert (H : subseq (kinds (calls (snd (run w file fs)))) request_order).
  { destruct (S (fresh fs)) as (evs & E & F). unfold run. now rewrite E. }
  split; [exact H|]. intros k. now apply subseq_count.
Qed.

(** ** What an append presupposes *)

Ltac step := cbn [calls files tmp_path app is_ok negb fst snd].

Ltac step_in H :=
  cbn [calls files tmp_path app is_ok negb fst snd] in H.

Ltac dead :=
  step;
  try match goal with
      | |- context [reply_text ?w (msg_error ?e) false] =>
        destruct (reply_text w (msg_error e) false) as [[]|?]; step
      end;
  try (rewrite remove_file_head; step);
  let H := fresh "H" in intros H; in_cases H.

(** X11: a row reaches the spreadsheet service only at the end of a request in
    which every earlier step returned: the file was fetched, written and read,
    the model answered with a record, the analysis message was delivered, and
    the credential and the service were obtained.  The row is the one of that
    record with the file name attached, and the table is the one of
    [SPREADSHEET_ID]. *)
Theorem append_only_when_analysed (w : world) (file : document)
  (fs : list path) (sid : option str) (row : list json) (ok : bool) :
  In (Ev (SheetsAppend sid row) ok) (calls (snd (run w file fs))) ->
  exists tg data p pages content d response creds service,
    Analysed w file tg data p pages content d response
    /\ get_google_creds w = Ok creds
    /\ build w creds = Ok service
    /\ sid = SPREADSHEET_ID w
    /\ sheet_row (JDict (stored file d)) = Ok row
    /\ ok = is_ok (values_append w service sid row).
Proof.
  destruct (is_pdf (mime_type file)) eqn:Hpdf.
  2:{ rewrite (run_not_pdf w file fs Hpdf). unfold log, fresh. dead. }
  destruct (reply_text w msg_receiving false) as [[]|e0] eqn:Hrecv.
  2:{ rewrite (run_unannounced w file fs e0 Hpdf Hrecv). unfold log, fresh.
      dead. }
  exec. use Hpdf. use Hrecv.
  destruct (get_file w (file_id file)) as [tg|e] eqn:Hfile; [step|dead].
  destruct (download_as_bytearray w tg) as [data|e] eqn:Hbytes; [step|dead].
  destruct (named_temporary_file w) as [p|e] eqn:Hcreate; [step|dead].
  destruct (tmp_write w p data) as [[]|e] eqn:Hwrite; step.
  2:{ destruct (tmp_close w p) as [[]|e']; dead. }
  destruct (tmp_close w p) as [[]|e] eqn:Hclose; [step|dead].
  destruct (pdf_load w p) as [pages|e] eqn:Hload; [step|dead].
  destruct (reply_text w msg_analysing false) as [[]|e] eqn:Hnote;
    [step|dead].
  destruct (llm_invoke w (prompt (join nl pages))) as [content|e] eqn:Hllm;
    [step|dead].
  destruct (json_loads w (strip_fences content)) as [v|e] eqn:Hjson;
    [step|dead].
  destruct (format_response w v) as [response|e] eqn:Hfmt; [step|dead].
  destruct (reply_text w response true) as [[]|e] eqn:Hreply; [step|dead].
  destruct v as [| | | | | |d];
    try (cbn [format_response py_get rbind] in Hfmt; discriminate).
  cbn [py_setitem]. fold (stored file d). unfold write_to_sheet, try_except,
    bind, perform, lift, log. step.
  destruct (get_google_creds w) as [creds|e] eqn:Hcreds; step.
  2:{ destruct (reply_text w msg_saved false) as [[]|e']; dead. }
  destruct (build w creds) as [service|e] eqn:Hbuild; step.
  2:{ destruct (reply_text w msg_saved false) as [[]|e']; dead. }
  destruct (sheet_row (JDict (stored file d))) as [row'|e] eqn:Hrow; step.
  2:{ destruct (reply_text w msg_saved false) as [[]|e']; dead. }
  intros H.
  assert (F : Ev (SheetsAppend sid row) ok
              = Ev (SheetsAppend (SPREADSHEET_ID w) row')
                   (is_ok (values_append w service (SPREADSHEET_ID w) row'))).
  { destruct (values_append w service (SPREADSHEET_ID w) row') as [[]|e];
      step_in H;
      destruct (reply_text w msg_saved false) as [[]|e']; step_in H;
      try (destruct (reply_text w (msg_error e') false) as [[]|?];
           step_in H);
      rewrite remove_file_head in H; step_in H; in_cases H;
      now symmetry. }
  injection F as -> -> ->.
  exists tg, data, p, pages, content, d, response, creds, service.
  repeat split; auto.
Qed.

Lemma append_only_when_analysed_witness :
  In (Ev (SheetsAppend (Some (lit "sheet-1")) Demo.row) true)
     (calls (snd (run (Demo.make Demo.fenced (Some (lit "e30=")) (Ok tt))
                      Demo.pdf [])))
  /\ exists response,
       reply_text (Demo.make Demo.fenced (Some (lit "e30=")) (Ok tt))
                  response true = Ok tt
       /\ sheet_row (JDict (stored Demo.pdf Demo.record)) = Ok Demo.row.
Proof.
  assert (H : In (Ev (SheetsAppend (Some (lit "sheet-1")) Demo.row) true)
                 (calls (snd (run (Demo.make Demo.fenced (Some (lit "e30="))
                                             (Ok tt))
                                  Demo.pdf [])))).
  { vm_compute. do 11 right. left. reflexivity. }
  split; [exact H|].
  destruct (append_only_when_analysed _ _ _ _ _ _ H)
    as (tg & data & p & pages & content & d & response & c & sv
        & Han & _ & _ & _ & Hrow & _).
  exists response. split; [apply (an_reply Han)|].
  vm_compute. reflexivity.
Defined.

(** ** [write_to_sheet] and the first message *)

(** X12: with a console that takes the line, [write_to_sheet] returns
    normally and touches nothing but the spreadsheet and the console.  Either
    every step returns, the row of the record is appended and nothing is
    printed; or exactly one line is printed, last, and it carries the
    exception of the first step that raised: the credential, then the
    service, then the row, then the append.  The calls made before the line
    are those up to the step that raised, and no row is stored. *)
Theorem write_to_sheet_prints_failure (w : world) (data : json)
  (sheet_id : option str) (st : state) :
  exists evs,
    write_to_sheet w data sheet_id st
    = (Ok tt, State (calls st ++ evs) (files st) (tmp_path st))
    /\ ((exists c sv row,
            get_google_creds w = Ok c /\ build w c = Ok sv
            /\ sheet_row data = Ok row
            /\ values_append w sv sheet_id row = Ok tt
            /\ evs = [Ev (SheetsBuild c) true;
                      Ev (SheetsAppend sheet_id row) true])
        \/ (exists pre e,
               evs = pre ++ [Ev (Print (log_line e)) true]
               /\ ((get_google_creds w = Raise e /\ pre = [])
                   \/ (exists c,
                          get_google_creds w = Ok c /\ build w c = Raise e
                          /\ pre = [Ev (SheetsBuild c) false])
                   \/ (exists c sv,
                          get_google_creds w = Ok c /\ build w c = Ok sv
                          /\ sheet_row data = Raise e
                          /\ pre = [Ev (SheetsBuild c) true])
                   \/ (exists c sv row,
                          get_google_creds w = Ok c /\ build w c = Ok sv
                          /\ sheet_row data = Ok row
                          /\ values_append w sv sheet_id row = Raise e
                          /\ pre = [Ev (SheetsBuild c) true;
                                    Ev (SheetsAppend sheet_id row) false])))).
Proof.
  rewrite write_to_sheet_unfold. unfold log. cbn [calls files tmp_path].
  destruct (get_google_creds w) as [c|e].
  2:{ eexists. split; [reflexivity|]. right. exists [], e.
      split; [reflexivity|]. left. now split. }
  destruct (build w c) as [sv|e] eqn:B.
  2:{ eexists. split; [now rewrite <- app_assoc|]. right.
      exists [Ev (SheetsBuild c) false], e. split; [reflexivity|].
      right. left. now exists c. }
  destruct (sheet_row data) as [row|e] eqn:R.
  2:{ eexists. split; [now rewrite <- app_assoc|]. right.
      exists [Ev (SheetsBuild c) true], e. split; [reflexivity|].
      right. right. left. now exists c, sv. }
  destruct (values_append w sv sheet_id row) as [[]|e] eqn:A.
  - eexists. split; [now rewrite <- app_assoc|]. left.
    now exists c, sv, row.
  - eexists. split; [now rewrite <- !app_assoc|]. right.
    exists [Ev (SheetsBuild c) true; Ev (SheetsAppend sheet_id row) false], e.
    split; [reflexivity|]. right. right. right. now exists c, sv, row.
Qed.

(** X13: the first message is sent outside the [try] block: when it cannot be
    delivered the exception leaves the handler, and nothing else is done, no
    download, no file, no error message. *)
Theorem undelivered_notice_escapes (w : world) (file : document)
  (fs : list path) (e : exn) :
  reply_text w
    (if is_pdf (mime_type file) then msg_receiving else msg_rejection) false
  = Raise e ->
  run w file fs
  = (Raise e,
     State [Ev (Reply (if is_pdf (mime_type file)
                       then msg_receiving else msg_rejection) false) false]
           fs None).
Proof.
  destruct (is_pdf (mime_type file)) eqn:Hpdf; intros H.
  - now rewrite (run_unannounced w file fs e Hpdf H).
  - rewrite (run_not_pdf w file fs Hpdf), H. reflexivity.
Qed.

Lemma undelivered_notice_escapes_witness :
  run (with_reply (Demo.make Demo.fenced None (Ok tt)) unreachable)
      Demo.pdf []
  = (Raise Demo.timeout, State [Ev (Reply msg_receiving false) false] [] None).
Proof.
  assert (H : reply_text
                (with_reply (Demo.make Demo.fenced None (Ok tt)) unreachable)
                (if is_pdf (mime_type Demo.pdf)
                 then msg_receiving else msg_rejection) false
              = Raise Demo.timeout) by reflexivity.
  rewrite (undelivered_notice_escapes _ Demo.pdf [] _ H).
  vm_compute. reflexivity.
Defined.
